(** * Options_Chart: the ContractAnalyzer pipeline

    A shallow embedding of [src/Options_Chart.py], class [ContractAnalyzer]:
    name -> search match -> contract selection by strike proximity ->
    candle retrieval -> indicator derivation -> {series, summary}.

    Conventions of the embedding.
    - The numbers contract selection computes with and compares, the
      strikes and the latest price, are IEEE 754 binary64 values
      ([spec_float] at precision 53), with the library's division,
      subtraction and comparison; NaN and the infinities are values.
    - The cells of a frame are rationals [Q]; a NaN cell (and a JSON null
      that pandas turns into NaN) is [None] in a [Series].
    - The market-data service, the local clock and the [ta] package are
      outside the repository: they are the fields of a [Runtime] record
      that every method takes as a parameter.
    - The analyzer object, the pandas frames it creates and the calls and
      messages it issues live in a [Machine]; a method is a state
      transformer over it that may raise.  A frame is an object on the
      heap and is passed around by reference, as in Python. *)

From Stdlib Require Import QArith Qabs Floats.SpecFloat.
From stdpp Require Import base option list strings numbers.

Set Default Proof Using "Type".

(** ** A state monad with exceptions *)

Section StateExn.
Context {S : Type}.

(** [None] as a result is a raised Python exception; the state reached
    before the raise is kept. *)
Definition X (A : Type) : Type := S -> option A * S.

Definition ret {A} (a : A) : X A := fun s => (Some a, s).
Definition raise {A} : X A := fun s => (None, s).
Definition bind {A B} (c : X A) (k : A -> X B) : X B :=
  fun s => match c s with
           | (Some a, s') => k a s'
           | (None, s') => (None, s')
           end.
Definition get : X S := fun s => (Some s, s).
Definition modify (f : S -> S) : X unit := fun s => (Some tt, f s).
(** [o] is the value of an expression that raises when it is [None]. *)
Definition lift_opt {A} (o : option A) : X A :=
  match o with Some a => ret a | None => raise end.
(** [try: body except Exception: handler] *)
Definition try_except {A} (body handler : X A) : X A :=
  fun s => match body s with
           | (Some a, s') => (Some a, s')
           | (None, s') => handler s'
           end.
End StateExn.

Arguments X : clear implicits.

Notation "'let*' x := c 'in' k" := (bind c (fun x => k))
  (at level 10, x name, c at level 100, k at level 200).
Notation "c >> k" := (bind c (fun _ => k))
  (at level 65, right associativity).

(** ** Payloads of the upstream service *)

(** An HTTP exchange: [Failed] stands for everything the source's
    [try/except] treats alike (connection error, [raise_for_status],
    a body that is not the expected JSON). *)
Inductive response (A : Type) : Type :=
| Failed
| Ok (a : A).
Arguments Failed {A}.
Arguments Ok {A} a.

(** One element of [data.content] of the search answer; a field read with
    [.get] may be missing. *)
Record SearchItem := {
  item_search_id : option string;
  item_nse_scrip_code : option string
}.

Record OptionLeg := { growwContractId : option string }.

(** ** Python floats *)

(** A Python float is an IEEE 754 binary64 value: 53 bits of precision,
    exponents below 1024.  The values Python holds are the valid ones
    ([valid_binary]); the operations below return valid values.  A JSON
    integer below 2^53 in magnitude enters the arithmetic of line 64 as
    the float equal to it: [n / 100] on integers is the correctly rounded
    quotient, which is what [SFdiv] gives on the floats of [n] and 100. *)
Abbreviation float64 := spec_float (only parsing).
Definition float_prec : Z := 53.
Definition float_emax : Z := 1024.

(** The float of an integer, rounded to nearest even. *)
Definition float_of_int (n : Z) : float64 :=
  binary_normalize float_prec float_emax n 0 false.

(** [math.isnan] and [math.isfinite] *)
Definition is_nan (x : float64) : bool :=
  match x with S754_nan => true | _ => false end.
Definition is_finite (x : float64) : bool :=
  match x with S754_zero _ | S754_finite _ _ _ => true | _ => false end.

(** The rational a finite float stands for. *)
Definition Q_of_float (x : float64) : Q :=
  match x with
  | S754_finite s m e =>
      ((if s then -1 else 1) * inject_Z (Zpos m) * Qpower 2 e)%Q
  | _ => 0%Q
  end.

(** One element of [optionChain.optionChains]; [strikePrice] is stored
    scaled by 100 and is a JSON number. *)
Record ChainEntry := {
  strikePrice : float64;
  callOption : option OptionLeg;
  putOption : option OptionLeg
}.

(** A candle [t, o, h, l, c, v] of the charting answer. *)
Record Candle := {
  c_time : Z;
  c_open : option Q;
  c_high : option Q;
  c_low : option Q;
  c_close : option Q;
  c_volume : option Q
}.

Record Gateway := {
  searchSecurity : string -> response (list SearchItem);
  listOptionChain : string -> response (list ChainEntry);
  latestPrice : string -> response (option float64);
  candleHistory : string -> Z -> Z -> Z -> response (list Candle)
}.

(** ** pandas frames *)

(** A float column; [None] is NaN. *)
Abbreviation Series := (list (option Q)) (only parsing).

(** The frames of this program: the rows, each with its index label and
    its cell of the string column ["time"], and the float columns in
    insertion order. *)
Record DataFrame := {
  df_rows : list (nat * string);
  df_columns : list (string * Series)
}.

Definition len (df : DataFrame) : nat := length (df_rows df).

(** [df.empty] *)
Definition is_empty (df : DataFrame) : bool :=
  match df_rows df with [] => true | _ => false end.

(** Association lists in insertion order, as Python dicts and pandas
    column sets are. *)
Fixpoint assoc {V} (k : string) (l : list (string * V)) : option V :=
  match l with
  | [] => None
  | (k', v) :: l' => if String.eqb k' k then Some v else assoc k l'
  end.

Fixpoint assoc_set {V} (k : string) (v : V) (l : list (string * V))
  : list (string * V) :=
  match l with
  | [] => [(k, v)]
  | (k', v') :: l' =>
      if String.eqb k' k then (k', v) :: l' else (k', v') :: assoc_set k v l'
  end.

(** [df[name]] *)
Definition getitem (name : string) (df : DataFrame) : option Series :=
  assoc name (df_columns df).

(** [df[name] = s], in place: the values are aligned on the row index. *)
Definition setitem (name : string) (s : Series) (df : DataFrame) : DataFrame :=
  {| df_rows := df_rows df;
     df_columns := assoc_set name (resize (len df) None s) (df_columns df) |}.

(** [a - b] on two series *)
Definition series_sub (a b : Series) : Series :=
  zip_with (fun x y => match x, y with
                       | Some u, Some v => Some (u - v)%Q
                       | _, _ => None
                       end) a b.

Fixpoint sum_defined (l : Series) : option Q :=
  match l with
  | [] => Some 0%Q
  | x :: l' =>
      match x, sum_defined l' with
      | Some a, Some b => Some (a + b)%Q
      | _, _ => None
      end
  end.

(** [s.rolling(window=w).mean()]: undefined until [w] rows are seen and
    wherever the window holds an undefined value. *)
Definition rolling_mean (w : nat) (s : Series) : Series :=
  map (fun i =>
         if S i <? w then None
         else match sum_defined (take w (drop (S i - w) s)) with
              | Some t => Some (t / inject_Z (Z.of_nat w))%Q
              | None => None
              end)
      (seq 0 (length s)).

Definition cell_defined (s : Series) (i : nat) : bool :=
  match s !! i with Some (Some _) => true | _ => false end.

Definition row_complete (df : DataFrame) (i : nat) : bool :=
  forallb (fun c => cell_defined c.2 i) (df_columns df).

Definition take_rows {A} (rows : list nat) (l : list A) : list A :=
  omap (fun i => l !! i) rows.

(** The positions [df.dropna()] keeps. *)
Definition kept_rows (df : DataFrame) : list nat :=
  filter (fun i => row_complete df i = true) (seq 0 (len df)).

(** [df.dropna()]: a new frame with the rows that have no undefined cell. *)
Definition dropna (df : DataFrame) : DataFrame :=
  {| df_rows := take_rows (kept_rows df) (df_rows df);
     df_columns :=
       map (fun c => (c.1, take_rows (kept_rows df) c.2)) (df_columns df) |}.

(** Values of a Python dict built from a row. *)
Inductive value :=
| VStr (s : string)
| VNum (x : option Q)
| VNone.

Definition dict : Type := list (string * value).

(** [df.iloc[-1].to_dict()]; [None] is the IndexError of an empty frame. *)
Definition iloc_last_to_dict (df : DataFrame) : option dict :=
  match list.last (df_rows df) with
  | None => None
  | Some row =>
      Some (("time", VStr row.2)
              :: map (fun c => (c.1, VNum (mjoin (c.2 !! (len df - 1)))))
                   (df_columns df))
  end.

(** ** The [ta] package *)

Record Bands := { hband : Series; lband : Series; wband : Series }.

(** What the program reads from each indicator object it constructs;
    [None] is an exception raised by the package. *)
Record TaLib := {
  RSIIndicator : Series -> nat -> option Series;
  BollingerBands : Series -> nat -> option Bands;
  MACD : Series -> nat -> nat -> nat -> option Series;
  ADXIndicator : Series -> Series -> Series -> nat -> option Series;
  TSIIndicator : Series -> nat -> nat -> option Series
}.

Record Runtime := {
  gateway : Gateway;
  fromtimestamp : Z -> option string;
  ta : TaLib
}.

(** ** The analyzer and its machine *)

Record ContractAnalyzer := {
  company_name : string;
  start_epoch : Z;
  end_epoch : Z;
  interval : Z;
  search_id : option string;
  nse_scrip_code : option string;
  call_contract_id : option string;
  put_contract_id : option string
}.

(** [ContractAnalyzer.__init__] *)
Definition init (name : string) (start_ end_ interval_ : Z) : ContractAnalyzer :=
  {| company_name := name; start_epoch := start_; end_epoch := end_;
     interval := interval_; search_id := None; nse_scrip_code := None;
     call_contract_id := None; put_contract_id := None |}.

Inductive Warning :=
| NoResults (name : string)
| NoSearchIds (name : string)
| NoOptionChains (name : string)
| NoContractIds (name : string)
| NotEnoughData.

Inductive ErrorSite :=
| ErrTicker
| ErrContractIds
| ErrPriceDetails (contract_id : option string)
| ErrIndicators.

(** What a run does to the outside: calls of the four gateway operations
    and the messages shown with [st.warning] and [st.error]. *)
Inductive Event :=
| SearchSecurity (query : string)
| ListOptionChain (search_id : string)
| LatestPrice (scrip_code : string)
| CandleHistory (contract_id : string) (start_ end_ interval_ : Z)
| StWarning (w : Warning)
| StError (e : ErrorSite).

Definition ref : Type := nat.

Record Machine := {
  self : ContractAnalyzer;
  heap : list DataFrame;
  trace : list Event
}.

Definition with_self (f : ContractAnalyzer -> ContractAnalyzer) (m : Machine)
  : Machine :=
  {| self := f (self m); heap := heap m; trace := trace m |}.
Definition with_heap (f : list DataFrame -> list DataFrame) (m : Machine)
  : Machine :=
  {| self := self m; heap := f (heap m); trace := trace m |}.
Definition with_trace (f : list Event -> list Event) (m : Machine) : Machine :=
  {| self := self m; heap := heap m; trace := f (trace m) |}.

Definition set_search_id (v : option string) (a : ContractAnalyzer) :=
  {| company_name := company_name a; start_epoch := start_epoch a;
     end_epoch := end_epoch a; interval := interval a;
     search_id := v; nse_scrip_code := nse_scrip_code a;
     call_contract_id := call_contract_id a;
     put_contract_id := put_contract_id a |}.
Definition set_nse_scrip_code (v : option string) (a : ContractAnalyzer) :=
  {| company_name := company_name a; start_epoch := start_epoch a;
     end_epoch := end_epoch a; interval := interval a;
     search_id := search_id a; nse_scrip_code := v;
     call_contract_id := call_contract_id a;
     put_contract_id := put_contract_id a |}.
Definition set_call_contract_id (v : option string) (a : ContractAnalyzer) :=
  {| company_name := company_name a; start_epoch := start_epoch a;
     end_epoch := end_epoch a; interval := interval a;
     search_id := search_id a; nse_scrip_code := nse_scrip_code a;
     call_contract_id := v;
     put_contract_id := put_contract_id a |}.
Definition set_put_contract_id (v : option string) (a : ContractAnalyzer) :=
  {| company_name := company_name a; start_epoch := start_epoch a;
     end_epoch := end_epoch a; interval := interval a;
     search_id := search_id a; nse_scrip_code := nse_scrip_code a;
     call_contract_id := call_contract_id a;
     put_contract_id := v |}.

(** Python truthiness of an id: [None] and the empty string are falsy. *)
Definition truthy (o : option string) : bool :=
  match o with
  | Some (String _ _) => true
  | _ => false
  end.

(** An id interpolated in an f-string. *)
Definition fstr (o : option string) : string :=
  match o with Some s => s | None => "None" end.

Definition get_self : X Machine ContractAnalyzer :=
  let* m := get in ret (self m).
Definition emit (e : Event) : X Machine unit :=
  modify (with_trace (fun t => t ++ [e])).
Definition st_warning (w : Warning) : X Machine unit := emit (StWarning w).
Definition st_error (e : ErrorSite) : X Machine unit := emit (StError e).

(** [requests.get(url); raise_for_status(); json()] *)
Definition request {A} (e : Event) (r : response A) : X Machine A :=
  emit e >> match r with Ok a => ret a | Failed => raise end.

(** A new frame object. *)
Definition alloc (df : DataFrame) : X Machine ref :=
  let* m := get in
  modify (with_heap (fun h => h ++ [df])) >> ret (length (heap m)).

Definition deref (r : ref) : X Machine DataFrame :=
  let* m := get in lift_opt (heap m !! r).

(** Run statements that work on the frame object [r], in place. *)
Definition in_place {A} (r : ref) (c : X DataFrame A) : X Machine A :=
  fun m => match heap m !! r with
           | None => (None, m)
           | Some df =>
               let '(a, df') := c df in
               (a, with_heap (fun h => <[r := df']> h) m)
           end.

(** ** Contract selection by strike proximity *)

(** The loop of [min(iterable, key=...)] over float keys: the running
    best is replaced only by an item whose key is strictly smaller, with
    Python's [<] on floats ([SFltb]: false as soon as a side is NaN). *)
Fixpoint min_from {A} (key : A -> float64) (best : A) (l : list A) : A :=
  match l with
  | [] => best
  | x :: l' =>
      if SFltb (key x) (key best) then min_from key x l'
      else min_from key best l'
  end.

(** [min(l, key=key)]; [None] is the ValueError of an empty iterable. *)
Definition py_min {A} (key : A -> float64) (l : list A) : option A :=
  match l with
  | [] => None
  | x :: l' => Some (min_from key x l')
  end.

(** [abs(x['strikePrice'] / 100 - live_price)], each operation rounded
    to binary64 as Python does. *)
Definition distance (live_price : float64) (x : ChainEntry) : float64 :=
  SFabs (SFsub float_prec float_emax
           (SFdiv float_prec float_emax (strikePrice x) (float_of_int 100))
           live_price).

(** The same distance in exact arithmetic, for finite strike and price. *)
Definition exact_distance (live_price : float64) (x : ChainEntry) : Q :=
  Qabs (Q_of_float (strikePrice x) / 100 - Q_of_float live_price).

(** [min(option_chains, key=lambda x: ...)]; a missing [ltp] makes the
    subtraction raise. *)
Definition closest (option_chains : list ChainEntry) (ltp : option float64)
  : option ChainEntry :=
  match ltp with
  | None => None
  | Some live_price => py_min (distance live_price) option_chains
  end.

(** [entry.get(leg, {}).get("growwContractId")] *)
Definition leg_id (leg : option OptionLeg) : option string :=
  match leg with Some o => growwContractId o | None => None end.

(** ** Frames from candles *)

Definition format_candle (clock : Z -> option string) (c : Candle)
  : option (string * Candle) :=
  match clock (c_time c) with
  | Some t => Some (t, c)
  | None => None
  end.

(** [pd.DataFrame(formatted_data)] *)
Definition from_records (rows : list (string * Candle)) : DataFrame :=
  {| df_rows := zip (seq 0 (length rows)) (map fst rows);
     df_columns :=
       [("open", map (fun r => c_open r.2) rows);
        ("high", map (fun r => c_high r.2) rows);
        ("low", map (fun r => c_low r.2) rows);
        ("close", map (fun r => c_close r.2) rows);
        ("volume", map (fun r => c_volume r.2) rows)] |}.

(** ** Results *)

Record Leg := { data : option ref; contractId : option string }.
Record AnalysisResult := { Call : Leg; Put : Leg }.
Record SummaryResult := { CallSummary : option dict; PutSummary : option dict }.

Definition of_id (o : option string) : value :=
  match o with Some s => VStr s | None => VNone end.

(** ** The methods of [ContractAnalyzer] *)

Section Methods.
Variable rt : Runtime.

Definition fetch_ticker_details : X Machine bool :=
  try_except
    (let* s := get_self in
     let* items := request (SearchSecurity (company_name s))
                     (searchSecurity (gateway rt) (company_name s)) in
     match items with
     | [] => st_warning (NoResults (company_name s)) >> ret false
     | item :: _ =>
         modify (with_self (set_search_id (item_search_id item))) >>
         modify (with_self (set_nse_scrip_code (item_nse_scrip_code item))) >>
         let* s := get_self in
         if negb (truthy (search_id s)) || negb (truthy (nse_scrip_code s))
         then st_warning (NoSearchIds (company_name s)) >> ret false
         else ret true
     end)
    (st_error ErrTicker >> ret false).

Definition fetch_closest_contract_ids : X Machine bool :=
  try_except
    (let* s := get_self in
     let* option_chains := request (ListOptionChain (fstr (search_id s)))
                             (listOptionChain (gateway rt) (fstr (search_id s))) in
     match option_chains with
     | [] => st_warning (NoOptionChains (company_name s)) >> ret false
     | _ =>
         let* live_price := request (LatestPrice (fstr (nse_scrip_code s)))
                              (latestPrice (gateway rt) (fstr (nse_scrip_code s))) in
         let* closest_chain := lift_opt (closest option_chains live_price) in
         modify (with_self
                   (set_call_contract_id (leg_id (callOption closest_chain)))) >>
         modify (with_self
                   (set_put_contract_id (leg_id (putOption closest_chain)))) >>
         let* s := get_self in
         if negb (truthy (call_contract_id s))
            || negb (truthy (put_contract_id s))
         then st_warning (NoContractIds (company_name s)) >> ret false
         else ret true
     end)
    (st_error ErrContractIds >> ret false).

Definition fetch_contract_price_details (contract_id : option string)
  : X Machine (option ref) :=
  try_except
    (if negb (truthy contract_id) then ret None
     else
       let* s := get_self in
       let* candles :=
         request (CandleHistory (fstr contract_id) (start_epoch s)
                    (end_epoch s) (interval s))
           (candleHistory (gateway rt) (fstr contract_id) (start_epoch s)
              (end_epoch s) (interval s)) in
       match candles with
       | [] => ret None
       | _ =>
           let* formatted_data :=
             lift_opt (mapM (format_candle (fromtimestamp rt)) candles) in
           let* r := alloc (from_records formatted_data) in
           ret (Some r)
       end)
    (st_error (ErrPriceDetails contract_id) >> ret None).

(** [data[name]] and [data[name] = s] as statements on the frame. *)
Definition col (name : string) : X DataFrame Series :=
  let* df := get in lift_opt (getitem name df).
Definition assign (name : string) (s : Series) : X DataFrame unit :=
  modify (setitem name s).

(** Lines 114-131: every statement reads and writes the frame [data]. *)
Definition derive_columns : X DataFrame unit :=
  let* close := col "close" in
  let* rsi := lift_opt (RSIIndicator (ta rt) close 14) in
  assign "RSI" rsi >>
  let* rsi_col := col "RSI" in
  assign "RSI_SMA_14" (rolling_mean 14 rsi_col) >>
  let* rsi_col := col "RSI" in
  let* rsi_sma := col "RSI_SMA_14" in
  assign "RSI_SMA-14_Difference" (series_sub rsi_col rsi_sma) >>
  let* close := col "close" in
  assign "SMA_20" (rolling_mean 20 close) >>
  let* close := col "close" in
  let* bb := lift_opt (BollingerBands (ta rt) close 20) in
  assign "BB_Upper" (hband bb) >>
  assign "BB_Lower" (lband bb) >>
  assign "BollingerBandWidth" (wband bb) >>
  let* close := col "close" in
  let* macd := lift_opt (MACD (ta rt) close 26 12 9) in
  assign "MACD_Histogram" macd >>
  let* high := col "high" in
  let* low := col "low" in
  let* close := col "close" in
  let* adx := lift_opt (ADXIndicator (ta rt) high low close 14) in
  assign "ADX" adx >>
  let* close := col "close" in
  let* tsi := lift_opt (TSIIndicator (ta rt) close 25 13) in
  assign "TSI" tsi.

Definition calculate_technical_indicators (data_ : option ref)
  : X Machine (option ref) :=
  try_except
    (match data_ with
     | None => st_warning NotEnoughData >> ret None
     | Some r =>
         let* df := deref r in
         if len df <? 20 then st_warning NotEnoughData >> ret None
         else
           in_place r derive_columns >>
           let* df := deref r in
           let* out := alloc (dropna df) in
           ret (Some out)
     end)
    (st_error ErrIndicators >> ret None).

(** [t.iloc[-1].to_dict() if t is not None and not t.empty else None] *)
Definition latest_row (technical : option ref) : X Machine (option dict) :=
  match technical with
  | None => ret None
  | Some r =>
      let* df := deref r in
      if is_empty df then ret None
      else let* d := lift_opt (iloc_last_to_dict df) in ret (Some d)
  end.

(** [if summary: summary["contractId"] = contract_id] *)
Definition tag_contract (summary : option dict) (contract_id : option string)
  : option dict :=
  match summary with
  | Some [] | None => summary
  | Some d => Some (assoc_set "contractId" (of_id contract_id) d)
  end.

Definition analysis_summary : X Machine (option SummaryResult) :=
  let* found := fetch_ticker_details in
  if negb found then ret None
  else
    let* selected := fetch_closest_contract_ids in
    if negb selected then ret None
    else
      let* s := get_self in
      let* call_data := fetch_contract_price_details (call_contract_id s) in
      let* s := get_self in
      let* put_data := fetch_contract_price_details (put_contract_id s) in
      let* call_technical := calculate_technical_indicators call_data in
      let* put_technical := calculate_technical_indicators put_data in
      let* call_summary := latest_row call_technical in
      let* put_summary := latest_row put_technical in
      let* s := get_self in
      ret (Some {| CallSummary := tag_contract call_summary (call_contract_id s);
                   PutSummary := tag_contract put_summary (put_contract_id s) |}).

Definition analyze : X Machine (option AnalysisResult) :=
  let* found := fetch_ticker_details in
  if negb found then ret None
  else
    let* selected := fetch_closest_contract_ids in
    if negb selected then ret None
    else
      let* s := get_self in
      let* call_data := fetch_contract_price_details (call_contract_id s) in
      let* s := get_self in
      let* put_data := fetch_contract_price_details (put_contract_id s) in
      let* call_technical := calculate_technical_indicators call_data in
      let* put_technical := calculate_technical_indicators put_data in
      let* s := get_self in
      ret (Some {| Call := {| data := call_technical;
                              contractId := call_contract_id s |};
                   Put := {| data := put_technical;
                             contractId := put_contract_id s |} |}).
End Methods.

(** ** Views of a result: what a caller reads through the references *)

Record LegView := { series : option DataFrame; leg_contract : option string }.

Definition view_leg (h : list DataFrame) (l : Leg) : LegView :=
  {| series := match data l with Some r => h !! r | None => None end;
     leg_contract := contractId l |}.

(** The full-series view of a finished [analyze] call. *)
Definition view_analyze (out : option (option AnalysisResult) * Machine)
  : option (LegView * LegView) :=
  match out.1 with
  | Some (Some res) =>
      Some (view_leg (heap out.2) (Call res), view_leg (heap out.2) (Put res))
  | _ => None
  end.

(** A leg of the full-series view is entirely absent when there is no
    result at all or the leg holds neither a series nor a contract id. *)
Definition leg_absent (v : option LegView) : Prop :=
  match v with
  | None => True
  | Some l => series l = None /\ leg_contract l = None
  end.

(** The projection of a full-series leg to its most recent row, extended
    with the contract id. *)
Definition project_latest (l : LegView) : option dict :=
  match series l with
  | None => None
  | Some df =>
      match iloc_last_to_dict df with
      | None => None
      | Some d => Some (assoc_set "contractId" (of_id (leg_contract l)) d)
      end
  end.

(** The summary a caller derives from the full-series view. *)
Definition summary_of_view (v : option (LegView * LegView))
  : option SummaryResult :=
  match v with
  | Some (c, p) =>
      Some {| CallSummary := project_latest c; PutSummary := project_latest p |}
  | None => None
  end.

Definition count_events (p : Event -> bool) (t : list Event) : nat :=
  length (List.filter p t).

Definition is_candle_call (e : Event) : bool :=
  match e with CandleHistory _ _ _ _ => true | _ => false end.


(** ** The [ta] package in its default mode

    [ta] is a third-party package.  With [fillna=False], which is how the
    source constructs every indicator, a column stays undefined until the
    windows of its moving averages hold [min_periods] observations: the
    first [window-1] rows for RSI and the bands, [slow-1+sign-1] rows for
    the MACD histogram and [slow+fast-1] rows for TSI.  [default_mode k]
    imposes that warm-up on the numbers of any kernel [k]. *)

Definition warm_up (n : nat) (s : Series) : Series :=
  imap (fun i x => if i <? n then None else x) s.

Definition default_mode (k : TaLib) : TaLib :=
  {| RSIIndicator close w := warm_up (w - 1) <$> RSIIndicator k close w;
     BollingerBands close w :=
       (fun b => {| hband := warm_up (w - 1) (hband b);
                    lband := warm_up (w - 1) (lband b);
                    wband := warm_up (w - 1) (wband b) |})
         <$> BollingerBands k close w;
     MACD close slow fast sign :=
       warm_up (slow - 1 + (sign - 1)) <$> MACD k close slow fast sign;
     ADXIndicator high low close w := ADXIndicator k high low close w;
     TSIIndicator close slow fast :=
       warm_up (slow + fast - 1) <$> TSIIndicator k close slow fast |}.

(** ** Sample runtimes used to exercise the model *)

(** A kernel whose numbers are all defined. *)
Definition flat (s : Series) : Series := map (fun _ => Some 0%Q) s.
Definition ta_flat : TaLib :=
  {| RSIIndicator close _ := Some (flat close);
     BollingerBands close _ :=
       Some {| hband := flat close; lband := flat close; wband := flat close |};
     MACD close _ _ _ := Some (flat close);
     ADXIndicator _ _ close _ := Some (flat close);
     TSIIndicator close _ _ := Some (flat close) |}.

Definition sample_candle (i : nat) : Candle :=
  let p := inject_Z (Z.of_nat (100 + i)) in
  {| c_time := Z.of_nat (900 * i);
     c_open := Some p; c_high := Some (p + 1)%Q; c_low := Some (p - 1)%Q;
     c_close := Some p; c_volume := Some 10%Q |}.

Definition sample_candles (n : nat) : list Candle := map sample_candle (seq 0 n).

Definition sample_leg (id : string) : option OptionLeg :=
  Some {| growwContractId := Some id |}.

(** Strikes 90, 100 and 110 (stored scaled by 100), both legs listed. *)
Definition sample_chain : list ChainEntry :=
  [ {| strikePrice := float_of_int 9000; callOption := sample_leg "C90";
       putOption := sample_leg "P90" |};
    {| strikePrice := float_of_int 10000; callOption := sample_leg "C100";
       putOption := sample_leg "P100" |};
    {| strikePrice := float_of_int 11000; callOption := sample_leg "C110";
       putOption := sample_leg "P110" |} ].


(** Strikes 127.99 and 128.01 (stored scaled by 100): both at 0.01 from
    a price of 128. *)
Definition tie_chain : list ChainEntry :=
  [ {| strikePrice := float_of_int 12799; callOption := sample_leg "C12799";
       putOption := sample_leg "P12799" |};
    {| strikePrice := float_of_int 12801; callOption := sample_leg "C12801";
       putOption := sample_leg "P12801" |} ].

Definition sample_gateway (chain : list ChainEntry) (n : nat) : Gateway :=
  {| searchSecurity _ :=
       Ok [ {| item_search_id := Some "acme-ltd";
               item_nse_scrip_code := Some "ACME" |} ];
     listOptionChain _ := Ok chain;
     latestPrice _ := Ok (Some (float_of_int 101));
     candleHistory _ _ _ _ := Ok (sample_candles n) |}.

Definition unknown_gateway : Gateway :=
  {| searchSecurity _ := Ok [];
     listOptionChain _ := Ok sample_chain;
     latestPrice _ := Ok (Some (float_of_int 101));
     candleHistory _ _ _ _ := Ok (sample_candles 40) |}.

Definition sample_clock (t : Z) : option string := Some "2024-01-01 09:15:00".

Definition sample_runtime (chain : list ChainEntry) (n : nat) : Runtime :=
  {| gateway := sample_gateway chain n;
     fromtimestamp := sample_clock;
     ta := default_mode ta_flat |}.

(** The service lists [tie_chain] and quotes 128. *)
Definition tie_runtime : Runtime :=
  {| gateway :=
       {| searchSecurity := searchSecurity (sample_gateway tie_chain 40);
          listOptionChain _ := Ok tie_chain;
          latestPrice _ := Ok (Some (float_of_int 128));
          candleHistory := candleHistory (sample_gateway tie_chain 40) |};
     fromtimestamp := sample_clock;
     ta := default_mode ta_flat |}.

Definition unknown_runtime : Runtime :=
  {| gateway := unknown_gateway;
     fromtimestamp := sample_clock;
     ta := default_mode ta_flat |}.

Definition fresh (name : string) : Machine :=
  {| self := init name 0 86400000 15; heap := []; trace := [] |}.

(** A frame of [n] sample candles, as [fetch_contract_price_details]
    builds it. *)
Definition sample_frame (n : nat) : DataFrame :=
  from_records (map (fun c => ("2024-01-01 09:15:00", c)) (sample_candles n)).

Definition machine_with (df : DataFrame) : Machine :=
  {| self := init "ACME" 0 86400000 15; heap := [df]; trace := [] |}.

(** ** The pipeline as functions of its inputs

    What each method computes from the runtime and the values it reads,
    without the machine; the methods are proved to compute these. *)

Section Pipeline.
Variable rt : Runtime.

(** The ids [fetch_ticker_details] stores when it returns [True]. *)
Definition resolved (name : string) : option (option string * option string) :=
  match searchSecurity (gateway rt) name with
  | Ok (item :: _) =>
      if truthy (item_search_id item) && truthy (item_nse_scrip_code item)
      then Some (item_search_id item, item_nse_scrip_code item)
      else None
  | _ => None
  end.

(** The entry [fetch_closest_contract_ids] settles on. *)
Definition winning_entry (sid nse : option string) : option ChainEntry :=
  match listOptionChain (gateway rt) (fstr sid) with
  | Ok (x :: l) =>
      match latestPrice (gateway rt) (fstr nse) with
      | Ok ltp => closest (x :: l) ltp
      | Failed => None
      end
  | _ => None
  end.

(** The ids [fetch_closest_contract_ids] stores when it returns [True]. *)
Definition selected (sid nse : option string)
  : option (option string * option string) :=
  match winning_entry sid nse with
  | Some e =>
      if truthy (leg_id (callOption e)) && truthy (leg_id (putOption e))
      then Some (leg_id (callOption e), leg_id (putOption e))
      else None
  | None => None
  end.

(** The frame [fetch_contract_price_details] creates. *)
Definition price_frame (contract_id : option string) (a : ContractAnalyzer)
  : option DataFrame :=
  if truthy contract_id then
    match candleHistory (gateway rt) (fstr contract_id) (start_epoch a)
            (end_epoch a) (interval a) with
    | Ok (c :: cs) =>
        from_records <$> mapM (format_candle (fromtimestamp rt)) (c :: cs)
    | _ => None
    end
  else None.

(** The frame [data] after [calculate_technical_indicators data]. *)
Definition mutated (df : DataFrame) : DataFrame :=
  if len df <? 20 then df else (derive_columns rt df).2.

(** The frame [calculate_technical_indicators] returns. *)
Definition indicator_frame (df : DataFrame) : option DataFrame :=
  if len df <? 20 then None
  else match derive_columns rt df with
       | (Some _, df') => Some (dropna df')
       | (None, _) => None
       end.

Definition leg_view (contract_id : option string) (a : ContractAnalyzer)
  : LegView :=
  {| series := price_frame contract_id a ≫= indicator_frame;
     leg_contract := contract_id |}.

(** Both legs of a run of the analyzer [a]. *)
Definition analysis (a : ContractAnalyzer) : option (LegView * LegView) :=
  match resolved (company_name a) with
  | None => None
  | Some (sid, nse) =>
      match selected sid nse with
      | None => None
      | Some (c, p) => Some (leg_view c a, leg_view p a)
      end
  end.
End Pipeline.

(** The constructor arguments of an analyzer. *)
Definition inputs (a : ContractAnalyzer) : string * Z * Z * Z :=
  (company_name a, start_epoch a, end_epoch a, interval a).

(** The object behind an optional reference. *)
Definition frame_at (h : list DataFrame) (o : option ref) : option DataFrame :=
  match o with Some r => h !! r | None => None end.

(** The heap once [calculate_technical_indicators] has worked on the
    frame behind [data_]. *)
Definition touched (rt : Runtime) (h : list DataFrame) (data_ : option ref)
  : list DataFrame :=
  match data_ with
  | Some r =>
      match h !! r with
      | Some df => <[r := mutated rt df]> h
      | None => h
      end
  | None => h
  end.

(** A reference, if any, points into the heap [h]. *)
Definition bounded (h : list DataFrame) (o : option ref) : Prop :=
  forall r, o = Some r -> r < length h.

(** The events [t] were appended and none of them is a candle-history call. *)
Definition quiet_suffix (m m' : Machine) : Prop :=
  exists t, trace m' = trace m ++ t /\ count_events is_candle_call t = 0.

(** The columns [calculate_technical_indicators] writes. *)
Definition derived_names : list string :=
  ["RSI"; "RSI_SMA_14"; "RSI_SMA-14_Difference"; "SMA_20"; "BB_Upper";
   "BB_Lower"; "BollingerBandWidth"; "MACD_Histogram"; "ADX"; "TSI"].

(** ** Charts and the batch driver *)

(** The names of the float columns, in order. *)
Definition column_names (df : DataFrame) : list string :=
  map fst (df_columns df).

(** The columns [pd.DataFrame(formatted_data)] has beside ["time"]. *)
Definition base_names : list string :=
  ["open"; "high"; "low"; "close"; "volume"].

(** The keys of a dict, or the columns of a frame, once [name] is
    assigned: a new name goes last. *)
Fixpoint names_after (name : string) (names : list string) : list string :=
  match names with
  | [] => [name]
  | n :: names' =>
      if String.eqb n name then n :: names' else n :: names_after name names'
  end.

(** [name in df.columns] *)
Definition has_column (name : string) (df : DataFrame) : bool :=
  if getitem name df is Some _ then true else false.

Definition is_message (e : Event) : bool :=
  match e with StWarning _ | StError _ => true | _ => false end.

Definition is_search_call (e : Event) : bool :=
  match e with SearchSecurity _ => true | _ => false end.

(** A trace of a plotly figure, plotted against the ["time"] column. *)
Inductive ChartTrace :=
| Candlestick (name : string) (open_ high_ low_ close_ : list (option Q))
| Scatter (name : string) (y : list (option Q)).

Record Figure := {
  fig_title : string;
  fig_x : list string;
  fig_traces : list ChartTrace
}.

(** What the driver puts on the page and on disk; [ExcelWritten] is a
    workbook that was saved with all its sheets. *)
Inductive UiEvent :=
| StWrite (text : string)
| StPlotlyChart (fig : Figure) (key : string)
| ExcelWritten (path : string) (sheets : list (string * list dict))
| StSuccess (text : string)
| StErrorText (text : string).

(** The machine of the analyzers together with the page. *)
Record Session := {
  machine : Machine;
  ui : list UiEvent
}.

(** Run a method of the analyzer inside the session. *)
Definition on_machine {A} (c : X Machine A) : X Session A :=
  fun s => let '(a, m') := c (machine s) in (a, {| machine := m'; ui := ui s |}).

Definition show (e : UiEvent) : X Session unit :=
  modify (fun s => {| machine := machine s; ui := ui s ++ [e] |}).

(** [plot_candlestick_chart(data, title, key)] *)
Definition plot_candlestick_chart (data_ : ref) (title key : string)
  : X Session unit :=
  let* df := on_machine (deref data_) in
  let* open_ := lift_opt (getitem "open" df) in
  let* high := lift_opt (getitem "high" df) in
  let* low := lift_opt (getitem "low" df) in
  let* close := lift_opt (getitem "close" df) in
  let* bands :=
    (if has_column "BB_Upper" df && has_column "BB_Lower" df
     then
       let* upper := lift_opt (getitem "BB_Upper" df) in
       let* lower := lift_opt (getitem "BB_Lower" df) in
       ret [Scatter "BB Upper" upper; Scatter "BB Lower" lower]
     else ret []) in
  let* sma :=
    (if has_column "SMA_20" df
     then let* y := lift_opt (getitem "SMA_20" df) in ret [Scatter "SMA 20" y]
     else ret []) in
  show (StPlotlyChart
          {| fig_title := title;
             fig_x := map snd (df_rows df);
             fig_traces := Candlestick title open_ high low close
                             :: bands ++ sma |}
          key).

(** [{"Ticker": ticker, **summary}] *)
Definition ticker_row (ticker : string) (summary : dict) : dict :=
  fold_left (fun acc kv => assoc_set kv.1 kv.2 acc) summary
    [("Ticker", VStr ticker)].

(** The sheets [main] writes: one per non-empty list of rows. *)
Definition sheets_of (call_data_list put_data_list : list dict)
  : list (string * list dict) :=
  (if call_data_list is [] then [] else [("CALL", call_data_list)])
    ++ (if put_data_list is [] then [] else [("PUT", put_data_list)]).

(** An uploaded file as [pd.read_csv] finds it: [Unreadable] when the
    call raises (an empty file, bytes that are not text), otherwise the
    table, of which [main] uses the column ["Ticker"] only; [None] is a
    table without that column.  The cells of the column are strings. *)
Inductive Csv :=
| Unreadable
| Table (ticker_column : option (list string)).

(** [pd.read_csv(uploaded_file)] *)
Definition read_csv (uploaded_file : Csv) : option (option (list string)) :=
  match uploaded_file with
  | Unreadable => None
  | Table ticker_column => Some ticker_column
  end.

Section Driver.
Variable rt : Runtime.
(** Python's [str.strip]. *)
Variable strip : string -> string.
(** The file system under openpyxl: whether [pd.ExcelWriter(path,
    engine='openpyxl')] accepts the path and the workbook with these
    sheets gets saved.  When it is [false] one of the calls of the
    [with] block raises. *)
Variable to_excel : string -> list (string * list dict) -> bool.
(** The values of the widgets once converted (lines 249-250 are taken
    as done): the window in epoch milliseconds, the interval and the
    output path. *)
Variables (start_ end_ interval_ : Z) (output_path : string).

(** One leg of the body of the loop: the chart, then the row. *)
Definition process_leg (label ticker : string) (leg : option Leg)
    (summary : option dict) (rows : list dict) : X Session (list dict) :=
  match leg with
  | Some {| data := Some r; contractId := id |} =>
      plot_candlestick_chart r (label ++ " - " ++ fstr id)
        (ticker ++ "_" ++ label) >>
      match summary with
      | Some [] | None => ret rows
      | Some d => ret (rows ++ [ticker_row ticker d])
      end
  | _ => ret rows
  end.

(** The body of [for ticker in tickers_df['Ticker']]. *)
Definition process_ticker (ticker : string) (lists : list dict * list dict)
  : X Session (list dict * list dict) :=
  show (StWrite ("Processing " ++ ticker ++ "...")) >>
  on_machine
    (modify (with_self (fun _ => init (strip ticker) start_ end_ interval_))) >>
  let* results := on_machine (analyze rt) in
  let* contracts_results := on_machine (analysis_summary rt) in
  let* call_data_list :=
    process_leg "CALL" ticker (Call <$> results)
      (contracts_results ≫= CallSummary) lists.1 in
  let* put_data_list :=
    process_leg "PUT" ticker (Put <$> results)
      (contracts_results ≫= PutSummary) lists.2 in
  ret (call_data_list, put_data_list).

Fixpoint for_tickers (tickers : list string) (lists : list dict * list dict)
  : X Session (list dict * list dict) :=
  match tickers with
  | [] => ret lists
  | ticker :: rest =>
      let* lists' := process_ticker ticker lists in for_tickers rest lists'
  end.

(** [main] from the click on the button on; [uploaded_file] is what the
    uploader returned.  Nothing in [main] catches an exception: a file
    [pd.read_csv] rejects, a table without the column ["Ticker"] and a
    workbook that cannot be written each end the run with the exception,
    after whatever was shown before. *)
Definition main (clicked : bool) (uploaded_file : option Csv)
  : X Session unit :=
  if clicked then
    match uploaded_file with
    | Some file =>
        let* tickers_df := lift_opt (read_csv file) in
        let* tickers := lift_opt tickers_df in
        let* lists := for_tickers tickers ([], []) in
        match lists with
        | ([], []) =>
            show (StErrorText
                    "Please upload a CSV file and provide an output path.")
        | (call_data_list, put_data_list) =>
            (if to_excel output_path (sheets_of call_data_list put_data_list)
             then show (ExcelWritten output_path
                          (sheets_of call_data_list put_data_list))
             else raise) >>
            show (StSuccess ("Results saved to " ++ output_path))
        end
    | None => ret tt
    end
  else ret tt.
End Driver.

(** *** The batch as a function of the tickers

    What [main] shows and writes, computed ticker by ticker from
    [analysis]; [main] is proved to produce exactly this. *)

(** The figure [plot_candlestick_chart] builds; [None] is a KeyError. *)
Definition chart_of (title : string) (df : DataFrame) : option Figure :=
  open_ ← getitem "open" df;
  high ← getitem "high" df;
  low ← getitem "low" df;
  close ← getitem "close" df;
  bands ← (if has_column "BB_Upper" df && has_column "BB_Lower" df
           then upper ← getitem "BB_Upper" df;
                lower ← getitem "BB_Lower" df;
                Some [Scatter "BB Upper" upper; Scatter "BB Lower" lower]
           else Some []);
  sma ← (if has_column "SMA_20" df
         then y ← getitem "SMA_20" df; Some [Scatter "SMA 20" y]
         else Some []);
  Some {| fig_title := title;
          fig_x := map snd (df_rows df);
          fig_traces := Candlestick title open_ high low close
                          :: bands ++ sma |}.

(** The chart of a leg, if the leg has a frame. *)
Definition leg_chart (label ticker : string) (v : LegView) : list UiEvent :=
  match series v with
  | Some df =>
      match chart_of (label ++ " - " ++ fstr (leg_contract v)) df with
      | Some fig => [StPlotlyChart fig (ticker ++ "_" ++ label)]
      | None => []
      end
  | None => []
  end.

(** The row of a leg, if the frame of the leg has a last row. *)
Definition leg_row (ticker : string) (v : LegView) : list dict :=
  match project_latest v with
  | Some d => [ticker_row ticker d]
  | None => []
  end.

Section Batch.
Variable rt : Runtime.
Variable strip : string -> string.
Variable to_excel : string -> list (string * list dict) -> bool.
Variables (start_ end_ interval_ : Z) (output_path : string).

Definition ticker_analysis (ticker : string) : option (LegView * LegView) :=
  analysis rt (init (strip ticker) start_ end_ interval_).

(** What one ticker puts on the page. *)
Definition ticker_page (ticker : string) : list UiEvent :=
  StWrite ("Processing " ++ ticker ++ "...")
  :: match ticker_analysis ticker with
     | Some (c, p) => leg_chart "CALL" ticker c ++ leg_chart "PUT" ticker p
     | None => []
     end.

Definition call_rows (ticker : string) : list dict :=
  match ticker_analysis ticker with
  | Some (c, _) => leg_row ticker c
  | None => []
  end.

Definition put_rows (ticker : string) : list dict :=
  match ticker_analysis ticker with
  | Some (_, p) => leg_row ticker p
  | None => []
  end.

(** Whether the run ends with an exception once the tickers are
    processed: there are rows and the workbook cannot be written. *)
Definition write_fails (call_data_list put_data_list : list dict) : bool :=
  match call_data_list, put_data_list with
  | [], [] => false
  | _, _ => negb (to_excel output_path (sheets_of call_data_list put_data_list))
  end.

(** What [main] puts on the page and on disk once the tickers are
    processed. *)
Definition closing (call_data_list put_data_list : list dict) : list UiEvent :=
  match call_data_list, put_data_list with
  | [], [] =>
      [StErrorText "Please upload a CSV file and provide an output path."]
  | _, _ =>
      if to_excel output_path (sheets_of call_data_list put_data_list)
      then [ExcelWritten output_path (sheets_of call_data_list put_data_list);
            StSuccess ("Results saved to " ++ output_path)]
      else []
  end.

(** The result of [main] after a click with the uploaded tickers: [None]
    is the exception of a workbook that cannot be written. *)
Definition batch_result (tickers : list string) : option unit :=
  if write_fails (concat (map call_rows tickers))
       (concat (map put_rows tickers))
  then None else Some tt.

(** The page after a click with the uploaded tickers. *)
Definition batch_page (tickers : list string) : list UiEvent :=
  concat (map ticker_page tickers)
    ++ closing (concat (map call_rows tickers)) (concat (map put_rows tickers)).
End Batch.

(** The texts shown with [st.write]. *)
Definition written (page : list UiEvent) : list string :=
  omap (fun e => if e is StWrite text then Some text else None) page.

(** The rows the loop collects from a blank page, for the sample runs. *)
Definition for_tickers_rows (rt : Runtime) (strip : string -> string)
    (start_ end_ interval_ : Z) (tickers : list string)
  : list dict * list dict :=
  default ([], [])
    (for_tickers rt strip start_ end_ interval_ tickers ([], [])
       {| machine := fresh ""; ui := [] |}).1.

(** The session a fresh page starts in. *)
Definition blank : Session :=
  {| machine := fresh ""; ui := [] |}.

(** A disk that takes workbooks whose name ends in [.xlsx] only, for the
    sample runs. *)
Definition xlsx_only (path : string) (sheets : list (string * list dict))
  : bool :=
  String.eqb (String.substring (String.length path - 5) 5 path) ".xlsx".

(** Strips spaces, for the sample runs. *)
Fixpoint lstrip (s : string) : string :=
  match s with
  | String (Ascii.Ascii false false false false false true false false) s' =>
      lstrip s'
  | _ => s
  end.
Definition sample_strip (s : string) : string :=
  String.rev (lstrip (String.rev (lstrip s))).

(** A package whose directional-movement index raises, as on a series
    too short for it; the other indicators are those of [ta_flat]. *)
Definition ta_adx_raises : TaLib :=
  {| RSIIndicator := RSIIndicator ta_flat;
     BollingerBands := BollingerBands ta_flat;
     MACD := MACD ta_flat;
     ADXIndicator _ _ _ _ := None;
     TSIIndicator := TSIIndicator ta_flat |}.

Definition raising_runtime : Runtime :=
  {| gateway := sample_gateway sample_chain 40;
     fromtimestamp := sample_clock;
     ta := ta_adx_raises |}.

(** Between [m] and [m'] the events [t] were appended, [c] of them
    candle-history calls and [s] of them search calls. *)
Definition traffic (m m' : Machine) (c s : nat) : Prop :=
  exists t, trace m' = trace m ++ t
            /\ count_events is_candle_call t = c
            /\ count_events is_search_call t = s.

(** * Properties *)

(** ** Contract selection *)

(** *** Order of the floats *)

(** Decides a fact about [SFcompare] by cases on the floats involved. *)
Ltac float_order :=
  unfold SFltb, SFleb, SFcompare, is_nan; intros;
  repeat match goal with
         | x : spec_float |- _ => destruct x as [[]|[]| |[] ? ?]
         end;
  try done;
  change (Pos.compare_cont Eq) with Pos.compare in *;
  repeat match goal with
         | H : context [Z.compare ?a ?b] |- _ => destruct (Z.compare_spec a b)
         | |- context [Z.compare ?a ?b] => destruct (Z.compare_spec a b)
         | H : context [Pos.compare ?a ?b] |- _ => destruct (Pos.compare_spec a b)
         | |- context [Pos.compare ?a ?b] => destruct (Pos.compare_spec a b)
         end;
  simpl in *; try done; subst; try lia.

(** Away from NaN, [not (x < y)] is [y <= x]. *)
Lemma SFltb_false (x y : float64) :
  is_nan x = false -> is_nan y = false -> SFltb x y = false -> SFleb y x = true.
Proof. float_order. Qed.

Lemma SFltb_leb (x y : float64) : SFltb x y = true -> SFleb x y = true.
Proof. float_order. Qed.

Lemma SFleb_ltb_trans (x y z : float64) :
  SFleb x y = true -> SFltb y z = true -> SFltb x z = true.
Proof. float_order. Qed.

Lemma SFltb_leb_trans (x y z : float64) :
  SFltb x y = true -> SFleb y z = true -> SFltb x z = true.
Proof. float_order. Qed.

Lemma SFltb_trans (x y z : float64) :
  SFltb x y = true -> SFltb y z = true -> SFltb x z = true.
Proof. intros H1 H2. eapply SFleb_ltb_trans; [by apply SFltb_leb|done]. Qed.

(** *** The float operations on numbers *)

(** Rounding a mantissa that is not negative does not give NaN. *)
Lemma shr_1_nonneg (mrs : shr_record) :
  (0 <= shr_m mrs)%Z -> (0 <= shr_m (shr_1 mrs))%Z.
Proof. destruct mrs as [[|[p|p|]|p] r s]; simpl; lia. Qed.

Lemma iter_pos_shr_1_nonneg (n : positive) (mrs : shr_record) :
  (0 <= shr_m mrs)%Z -> (0 <= shr_m (SpecFloat.iter_pos shr_1 n mrs))%Z.
Proof.
  revert mrs. induction n as [n IH|n IH|]; intros mrs H; simpl.
  - apply IH, IH. by apply shr_1_nonneg.
  - by apply IH, IH.
  - by apply shr_1_nonneg.
Qed.

Lemma shr_fexp_nonneg (prec emax m e : Z) (l : location) :
  (0 <= m)%Z -> (0 <= shr_m (shr_fexp prec emax m e l).1)%Z.
Proof.
  intros H. unfold shr_fexp, shr.
  assert (0 <= shr_m (shr_record_of_loc m l))%Z by (by destruct l as [|[]]).
  destruct (_ - e)%Z; simpl; [done| |done].
  by apply iter_pos_shr_1_nonneg.
Qed.

Lemma round_nearest_even_nonneg (m : Z) (l : location) :
  (0 <= m)%Z -> (0 <= round_nearest_even m l)%Z.
Proof.
  intros H. destruct l as [|[]]; simpl; try done; [destruct (Z.even m)|]; lia.
Qed.

Lemma binary_round_aux_defined (prec emax : Z) (s : bool) (m e : Z)
    (l : location) :
  (0 <= m)%Z -> is_nan (binary_round_aux prec emax s m e l) = false.
Proof.
  intros H. unfold binary_round_aux.
  pose proof (shr_fexp_nonneg prec emax m e l H) as H1.
  destruct (shr_fexp prec emax m e l) as [mrs' e'] eqn:E1. simpl in H1.
  pose proof (shr_fexp_nonneg prec emax _ e' loc_Exact
                (round_nearest_even_nonneg _ (loc_of_shr_record mrs') H1)) as H2.
  destruct (shr_fexp prec emax _ e' loc_Exact) as [mrs'' e''] eqn:E2.
  simpl in H2.
  destruct (shr_m mrs''); [done| |lia].
  by destruct (_ <=? _)%Z.
Qed.

Lemma binary_normalize_defined (prec emax m e : Z) (szero : bool) :
  is_nan (binary_normalize prec emax m e szero) = false.
Proof.
  destruct m as [|m|m]; simpl; [done| |];
    unfold binary_round; destruct (shl_align _ _ _);
    by apply binary_round_aux_defined.
Qed.

(** A number divided by a finite float other than zero is a number. *)
Lemma SFdiv_defined (prec emax : Z) (x : float64) (sy : bool) (my : positive)
    (ey : Z) :
  is_nan x = false ->
  is_nan (SFdiv prec emax x (S754_finite sy my ey)) = false.
Proof.
  destruct x as [sx|sx| |sx mx ex]; try done.
  intros _. unfold SFdiv.
  destruct (SFdiv_core_binary _ _ _ _ _ _) as [[mz ez] lz] eqn:E.
  apply binary_round_aux_defined.
  unfold SFdiv_core_binary in E.
  destruct (Z.div_eucl _ _) as [q r] eqn:D in E. injection E as <- _ _.
  match type of D with Z.div_eucl ?a ?b = _ =>
    assert (q = a / b)%Z as -> by (unfold Z.div; by rewrite D) end.
  apply Z.div_pos; [|lia].
  destruct (_ - _ - _)%Z; [lia| |lia].
  apply Z.shiftl_nonneg. lia.
Qed.

(** A number minus a finite float is a number. *)
Lemma SFsub_defined (prec emax : Z) (x y : float64) :
  is_nan x = false -> is_finite y = true ->
  is_nan (SFsub prec emax x y) = false.
Proof.
  destruct x as [[]|sx| |sx mx ex], y as [[]|sy| |sy my ey]; try done.
  intros _ _. apply binary_normalize_defined.
Qed.

Lemma SFabs_defined (x : float64) : is_nan (SFabs x) = is_nan x.
Proof. by destruct x. Qed.

(** The distance of a strike that is a number from a finite price is a
    number. *)
Lemma distance_defined (p : float64) (x : ChainEntry) :
  is_nan (strikePrice x) = false -> is_finite p = true ->
  is_nan (distance p x) = false.
Proof.
  intros Hx Hp. unfold distance. rewrite SFabs_defined.
  apply SFsub_defined; [|done].
  change (float_of_int 100) with (S754_finite false 7036874417766400 (-46)).
  by apply SFdiv_defined.
Qed.

(** *** The item [min] returns *)

(** When no key is NaN, the item [min] returns splits the iterable into
    strictly larger keys before it and keys that are not smaller after
    it. *)
Lemma min_from_split {A} (key : A -> float64) (l : list A) (best : A) :
  Forall (fun x => is_nan (key x) = false) (best :: l) ->
  exists pre post,
    best :: l = pre ++ min_from key best l :: post
    /\ Forall (fun x => SFltb (key (min_from key best l)) (key x) = true) pre
    /\ Forall (fun x => SFleb (key (min_from key best l)) (key x) = true) post.
Proof.
  revert best. induction l as [|x l IH]; intros best Hnan; simpl.
  - exists [], []. repeat split; constructor.
  - inversion Hnan as [|? ? Hb Hnan']; subst.
    inversion Hnan' as [|? ? Hx Hl]; subst.
    destruct (SFltb (key x) (key best)) eqn:E.
    + destruct (IH x) as (pre & post & Heq & Hpre & Hpost); [by constructor|].
      exists (best :: pre), post. split; [simpl; by rewrite Heq|].
      split; [|done]. constructor; [|done].
      destruct pre as [|y pre]; simpl in Heq.
      * injection Heq as Hx' _. by rewrite <- Hx'.
      * injection Heq as Hx' _. subst y.
        inversion Hpre as [|? ? Hlt _]; subst.
        by eapply SFltb_trans.
    + apply SFltb_false in E; [|done..].
      destruct (IH best) as (pre & post & Heq & Hpre & Hpost);
        [by constructor|].
      destruct pre as [|y pre]; simpl in Heq.
      * injection Heq as Hb' Hl'. exists [], (x :: post).
        split; [simpl; by rewrite <- Hb', <- Hl'|].
        split; [constructor|]. constructor; [by rewrite <- Hb' | done].
      * injection Heq as Hb' Hl'. subst y.
        exists (best :: x :: pre), post.
        split; [simpl; by rewrite <- Hl'|]. split; [|done].
        inversion Hpre as [|? ? Hlt Hpre']; subst.
        constructor; [done|]. constructor; [|done].
        by eapply SFltb_leb_trans.
Qed.

(** Next to a NaN key nothing is smaller: when the key of the first item
    is NaN, [min] returns the first item, whatever follows. *)
Lemma min_from_nan {A} (key : A -> float64) (best : A) (l : list A) :
  is_nan (key best) = true -> min_from key best l = best.
Proof.
  intros H. induction l as [|x l IH]; simpl; [done|].
  assert (SFltb (key x) (key best) = false) as ->; [|done].
  destruct (key best); try done. unfold SFltb, SFcompare.
  by destruct (key x).
Qed.

(** A NaN price makes every distance NaN, and the first entry of the
    chain is selected. *)
Lemma closest_nan_price (x : ChainEntry) (l : list ChainEntry) :
  closest (x :: l) (Some S754_nan) = Some x.
Proof.
  simpl. f_equal. apply min_from_nan. unfold distance.
  by destruct (SFdiv _ _ _ _).
Qed.

(** *** C1 *)

(** C1: for a non-empty option chain whose strikes are numbers and a
    finite latest traded price, [fetch_closest_contract_ids] settles on
    the entry of minimal distance, the distance being the binary64 value
    Python computes for [abs(strike/100 - price)]: every entry before the
    chosen one has a strictly larger computed distance (of the entries at
    the minimal computed distance it is the first of the chain) and no
    entry after it has a smaller one; a chain of one entry yields that
    entry; the ids stored on the analyzer are those of the entry. *)
Theorem C1_closest_entry_selected (rt : Runtime) (m : Machine)
    (chain : list ChainEntry) (p : float64) :
  chain <> [] ->
  Forall (fun x => is_nan (strikePrice x) = false) chain ->
  is_finite p = true ->
  listOptionChain (gateway rt) (fstr (search_id (self m))) = Ok chain ->
  latestPrice (gateway rt) (fstr (nse_scrip_code (self m))) = Ok (Some p) ->
  exists pre e post,
    chain = pre ++ e :: post
    /\ Forall (fun x => SFltb (distance p e) (distance p x) = true) pre
    /\ Forall (fun x => SFleb (distance p e) (distance p x) = true) post
    /\ (forall e0, chain = [e0] -> e = e0)
    /\ closest chain (Some p) = Some e
    /\ call_contract_id (self (fetch_closest_contract_ids rt m).2)
       = leg_id (callOption e)
    /\ put_contract_id (self (fetch_closest_contract_ids rt m).2)
       = leg_id (putOption e).
Proof.
  intros Hne Hnum Hfin Hchain Hprice.
  destruct chain as [|x l]; [done|].
  destruct (min_from_split (distance p) l x) as (pre & post & Heq & Hpre & Hpost).
  { eapply Forall_impl; [|exact Hnum]. intros y Hy. by apply distance_defined. }
  exists pre, (min_from (distance p) x l), post.
  split; [done|]. split; [done|]. split; [done|].
  split.
  { intros e0 [= -> ->]. done. }
  split; [done|].
  unfold fetch_closest_contract_ids, try_except, bind, get_self, request,
    emit, modify, get, ret, lift_opt, st_warning.
  simpl. rewrite Hchain. simpl. rewrite Hprice. simpl.
  destruct (negb _ || negb _); simpl; done.
Qed.

Lemma C1_closest_entry_selected_witness :
  exists pre e post,
    sample_chain = pre ++ e :: post
    /\ Forall (fun x => SFltb (distance (float_of_int 101) e)
                          (distance (float_of_int 101) x) = true) pre
    /\ Forall (fun x => SFleb (distance (float_of_int 101) e)
                          (distance (float_of_int 101) x) = true) post
    /\ (forall e0, sample_chain = [e0] -> e = e0)
    /\ closest sample_chain (Some (float_of_int 101)) = Some e
    /\ call_contract_id
         (self (fetch_closest_contract_ids (sample_runtime sample_chain 40)
                  (fresh "ACME")).2)
       = leg_id (callOption e)
    /\ put_contract_id
         (self (fetch_closest_contract_ids (sample_runtime sample_chain 40)
                  (fresh "ACME")).2)
       = leg_id (putOption e).
Proof.
  apply (C1_closest_entry_selected (sample_runtime sample_chain 40)
           (fresh "ACME") sample_chain (float_of_int 101));
    [done | repeat constructor | reflexivity | reflexivity | reflexivity].
Defined.

(** The claim read in exact arithmetic fails.  Strikes 127.99 and 128.01
    are both at 0.01 from a price of 128, so the first of them would have
    to win the tie; in binary64 the first is at 0.010000000000005116 and
    the second at 0.009999999999990905, and the analyzer stores the ids
    of the second. *)
Lemma C1_counterexample :
  ~ (forall (rt : Runtime) (m : Machine) (chain : list ChainEntry)
       (p : float64),
       chain <> [] ->
       Forall (fun x => is_finite (strikePrice x) = true) chain ->
       is_finite p = true ->
       listOptionChain (gateway rt) (fstr (search_id (self m))) = Ok chain ->
       latestPrice (gateway rt) (fstr (nse_scrip_code (self m)))
       = Ok (Some p) ->
       exists pre e post,
         chain = pre ++ e :: post
         /\ Forall (fun x => (exact_distance p e < exact_distance p x)%Q) pre
         /\ Forall (fun x => (exact_distance p e <= exact_distance p x)%Q) post
         /\ call_contract_id (self (fetch_closest_contract_ids rt m).2)
            = leg_id (callOption e)).
Proof.
  intros H.
  destruct (H tie_runtime (fresh "ACME") tie_chain (float_of_int 128))
    as (pre & e & post & Heq & Hpre & _ & Hid);
    [done | repeat constructor | reflexivity | reflexivity | reflexivity |].
  assert (Hstored :
            call_contract_id
              (self (fetch_closest_contract_ids tie_runtime (fresh "ACME")).2)
            = Some "C12801") by (vm_compute; reflexivity).
  rewrite Hstored in Hid.
  destruct pre as [|x [|y pre]]; unfold tie_chain in Heq; simpl in Heq.
  - injection Heq as <- _. discriminate Hid.
  - injection Heq as <- <- _.
    inversion Hpre as [|? ? Hlt _]; subst.
    vm_compute in Hlt. discriminate Hlt.
  - injection Heq as _ _ Hnil. by destruct pre.
Qed.

(** ** What each method does to the machine *)

Lemma lookup_snoc_new {A} (h : list A) (x : A) : (h ++ [x]) !! length h = Some x.
Proof. by apply list_lookup_middle. Qed.

(** Closes a [quiet_suffix] goal once the trace is explicit. *)
Ltac quiet :=
  eexists; split;
  [unfold with_trace, with_self, with_heap; simpl; rewrite <- ?app_assoc;
   reflexivity
  | reflexivity].

(** Unfolds the monad and the machine primitives, not the methods. *)
Ltac xunfold :=
  cbv beta match zeta delta
    [bind ret raise get modify lift_opt try_except get_self emit st_warning
     st_error request alloc deref in_place].

Section Runs.
Variable rt : Runtime.

Lemma fetch_ticker_details_run (m : Machine) :
  exists m',
    fetch_ticker_details rt m
    = (Some (if resolved rt (company_name (self m)) is Some _
             then true else false), m')
    /\ heap m' = heap m
    /\ inputs (self m') = inputs (self m)
    /\ (forall ids, resolved rt (company_name (self m)) = Some ids ->
          search_id (self m') = ids.1 /\ nse_scrip_code (self m') = ids.2)
    /\ quiet_suffix m m'.
Proof.
  unfold fetch_ticker_details, resolved, try_except, bind, get_self, request,
    emit, modify, get, ret, raise, st_warning, st_error, quiet_suffix.
  simpl.
  destruct (searchSecurity (gateway rt) (company_name (self m)))
    as [|[|item items]]; simpl;
    [| | destruct (truthy (item_search_id item)),
           (truthy (item_nse_scrip_code item)); simpl];
    (eexists; split; [reflexivity|]; split; [done|]; split; [done|];
     split; [by intros ids [= <-] | quiet]).
Qed.

Lemma fetch_closest_contract_ids_run (m : Machine) :
  exists m',
    fetch_closest_contract_ids rt m
    = (Some (if selected rt (search_id (self m)) (nse_scrip_code (self m))
             is Some _ then true else false), m')
    /\ heap m' = heap m
    /\ inputs (self m') = inputs (self m)
    /\ (forall e,
          winning_entry rt (search_id (self m)) (nse_scrip_code (self m))
          = Some e ->
          call_contract_id (self m') = leg_id (callOption e)
          /\ put_contract_id (self m') = leg_id (putOption e))
    /\ quiet_suffix m m'.
Proof.
  unfold fetch_closest_contract_ids, selected, winning_entry, try_except,
    bind, get_self, request, emit, modify, get, ret, raise, lift_opt,
    st_warning, st_error, quiet_suffix.
  simpl.
  destruct (listOptionChain (gateway rt) (fstr (search_id (self m))))
    as [|[|x l]]; simpl;
    [| | destruct (latestPrice (gateway rt) (fstr (nse_scrip_code (self m))))
           as [|[p|]]; simpl;
         [| destruct (truthy (leg_id (callOption (min_from (distance p) x l)))),
              (truthy (leg_id (putOption (min_from (distance p) x l))));
            simpl |]];
    (eexists; split; [reflexivity|]; split; [done|]; split; [done|];
     split; [by intros e [= <-] | quiet]).
Qed.

Lemma fetch_contract_price_details_run (cid : option string) (m : Machine) :
  exists m',
    fetch_contract_price_details rt cid m
    = (Some (if price_frame rt cid (self m) is Some _
             then Some (length (heap m)) else None), m')
    /\ self m' = self m
    /\ heap m' = heap m ++ option_list (price_frame rt cid (self m)).
Proof.
  unfold fetch_contract_price_details, price_frame. xunfold.
  destruct (truthy cid); cbv beta match delta [negb];
    [|eexists; split; [reflexivity|]; split; [done | by rewrite app_nil_r]].
  destruct (candleHistory (gateway rt) (fstr cid) (start_epoch (self m))
              (end_epoch (self m)) (interval (self m))) as [|[|c cs]];
    [eexists; split; [reflexivity|]; split; [done | by rewrite app_nil_r]
    |eexists; split; [reflexivity|]; split; [done | by rewrite app_nil_r]|].
  destruct (mapM (format_candle (fromtimestamp rt)) (c :: cs));
    (eexists; split; [reflexivity|]; split; [done|]);
    [done | by rewrite app_nil_r].
Qed.

Lemma calculate_technical_indicators_run (data_ : option ref) (m : Machine) :
  exists m',
    calculate_technical_indicators rt data_ m
    = (Some (if frame_at (heap m) data_ ≫= indicator_frame rt is Some _
             then Some (length (heap m)) else None), m')
    /\ self m' = self m
    /\ heap m'
       = touched rt (heap m) data_
           ++ option_list (frame_at (heap m) data_ ≫= indicator_frame rt).
Proof.
  unfold calculate_technical_indicators, indicator_frame, touched, mutated.
  xunfold.
  destruct data_ as [r|]; simpl;
    [|eexists; split; [reflexivity|]; split; [done | by rewrite app_nil_r]].
  destruct (heap m !! r) as [df|] eqn:Hr; simpl;
    [|eexists; split; [reflexivity|]; split; [done | by rewrite app_nil_r]].
  destruct (len df <? 20); simpl.
  { eexists; split; [reflexivity|]; split; [done|].
    simpl. by rewrite app_nil_r, list_insert_id. }
  rewrite Hr.
  destruct (derive_columns rt df) as [[[]|] df'] eqn:Hd; simpl.
  - rewrite list_lookup_insert_eq by (by eapply lookup_lt_Some).
    simpl. eexists; split; [by rewrite length_insert|]. done.
  - eexists; split; [reflexivity|]; split; [done | by rewrite app_nil_r].
Qed.

Lemma frame_at_app (h l : list DataFrame) (o : option ref) :
  bounded h o -> frame_at (h ++ l) o = frame_at h o.
Proof.
  destruct o as [r|]; [|done]. intros Hb. simpl.
  apply lookup_app_l. by apply Hb.
Qed.

Lemma frame_at_insert (h : list DataFrame) (o : option ref) (r : ref)
    (df : DataFrame) :
  o <> Some r -> frame_at (<[r := df]> h) o = frame_at h o.
Proof.
  destruct o as [r'|]; [|done]. intros Hne. simpl.
  apply list_lookup_insert_ne. congruence.
Qed.

Lemma bounded_mono (h h' : list DataFrame) (o : option ref) :
  length h <= length h' -> bounded h o -> bounded h' o.
Proof. intros Hle Hb r Hr. specialize (Hb r Hr). lia. Qed.

(** A fetch creates at most one new object and touches no other. *)
Lemma fetch_contract_price_details_frame (cid : option string) (m : Machine) :
  exists res m',
    fetch_contract_price_details rt cid m = (Some res, m')
    /\ self m' = self m
    /\ frame_at (heap m') res = price_frame rt cid (self m)
    /\ (forall r, res = Some r -> length (heap m) <= r)
    /\ bounded (heap m') res
    /\ length (heap m) <= length (heap m')
    /\ (forall o, bounded (heap m) o ->
          frame_at (heap m') o = frame_at (heap m) o).
Proof.
  destruct (fetch_contract_price_details_run cid m) as (m' & E & Hs & Hh).
  eexists _, m'. split; [exact E|]. split; [done|]. rewrite Hh.
  destruct (price_frame rt cid (self m)) as [df|]; simpl.
  - split; [apply lookup_snoc_new|].
    split; [intros r [= <-]; lia|].
    split; [intros r [= <-]; rewrite length_app; simpl; lia|].
    split; [rewrite length_app; simpl; lia|].
    intros o Hb. by apply frame_at_app.
  - rewrite app_nil_r. repeat split; done.
Qed.

(** Indicator derivation creates at most one new object and, of the old
    ones, touches only the frame it is given. *)
Lemma calculate_technical_indicators_frame (data_ : option ref) (m : Machine) :
  exists res m',
    calculate_technical_indicators rt data_ m = (Some res, m')
    /\ self m' = self m
    /\ frame_at (heap m') res = frame_at (heap m) data_ ≫= indicator_frame rt
    /\ (forall r, res = Some r -> length (heap m) <= r)
    /\ bounded (heap m') res
    /\ length (heap m) <= length (heap m')
    /\ (forall o, bounded (heap m) o -> o = None \/ o <> data_ ->
          frame_at (heap m') o = frame_at (heap m) o).
Proof.
  destruct (calculate_technical_indicators_run data_ m) as (m' & E & Hs & Hh).
  eexists _, m'. split; [exact E|]. split; [done|]. rewrite Hh.
  assert (Hlen : length (touched rt (heap m) data_) = length (heap m)).
  { unfold touched. destruct data_ as [r|]; [|done].
    destruct (heap m !! r); [|done]. apply length_insert. }
  assert (Hkeep : forall o, o = None \/ o <> data_ ->
            frame_at (touched rt (heap m) data_) o = frame_at (heap m) o).
  { intros o Ho. unfold touched. destruct data_ as [r|]; [|done].
    destruct (heap m !! r); [|done].
    destruct Ho as [->|Ho]; [done|]. by apply frame_at_insert. }
  destruct (frame_at (heap m) data_ ≫= indicator_frame rt) as [out|]; simpl.
  - split; [rewrite <- Hlen; apply lookup_snoc_new|].
    split; [intros r [= <-]; lia|].
    split; [intros r [= <-]; rewrite length_app; simpl; lia|].
    split; [rewrite length_app; simpl; lia|].
    intros o Hb Ho. rewrite frame_at_app; [by apply Hkeep|].
    eapply bounded_mono; [|exact Hb]. lia.
  - rewrite app_nil_r.
    split; [done|]. split; [done|]. split; [by intros r|].
    split; [lia|]. intros o _ Ho. by apply Hkeep.
Qed.

Lemma price_frame_inputs (cid : option string) (a b : ContractAnalyzer) :
  inputs a = inputs b -> price_frame rt cid a = price_frame rt cid b.
Proof.
  unfold inputs, price_frame. intros [= E1 E2 E3 E4].
  by rewrite E2, E3, E4.
Qed.

Lemma analysis_inputs (a b : ContractAnalyzer) :
  inputs a = inputs b -> analysis rt a = analysis rt b.
Proof.
  intros E. unfold analysis, leg_view.
  assert (company_name a = company_name b) as -> by (by injection E).
  destruct (resolved rt (company_name b)) as [[sid nse]|]; [|done].
  destruct (selected rt sid nse) as [[c p]|]; [|done].
  by rewrite !(price_frame_inputs _ a b E).
Qed.

(** The four steps that follow a successful selection, shared by both
    views: a fetch and a derivation per leg. *)
Lemma legs_run (m : Machine) :
  exists cd pd ct pt m1 m2 m3 m4,
    fetch_contract_price_details rt (call_contract_id (self m)) m
    = (Some cd, m1)
    /\ fetch_contract_price_details rt (put_contract_id (self m1)) m1
       = (Some pd, m2)
    /\ calculate_technical_indicators rt cd m2 = (Some ct, m3)
    /\ calculate_technical_indicators rt pd m3 = (Some pt, m4)
    /\ self m1 = self m /\ self m4 = self m
    /\ frame_at (heap m4) ct
       = series (leg_view rt (call_contract_id (self m)) (self m))
    /\ frame_at (heap m4) pt
       = series (leg_view rt (put_contract_id (self m)) (self m))
    /\ bounded (heap m4) ct /\ bounded (heap m4) pt.
Proof.
  destruct (fetch_contract_price_details_frame (call_contract_id (self m)) m)
    as (cd & m1 & E1 & S1 & F1 & G1 & B1 & L1 & K1).
  destruct (fetch_contract_price_details_frame (put_contract_id (self m1)) m1)
    as (pd & m2 & E2 & S2 & F2 & G2 & B2 & L2 & K2).
  destruct (calculate_technical_indicators_frame cd m2)
    as (ct & m3 & E3 & S3 & F3 & G3 & B3 & L3 & K3).
  destruct (calculate_technical_indicators_frame pd m3)
    as (pt & m4 & E4 & S4 & F4 & G4 & B4 & L4 & K4).
  exists cd, pd, ct, pt, m1, m2, m3, m4.
  split; [done|]. split; [done|]. split; [done|]. split; [done|].
  split; [done|]. split; [congruence|].
  assert (Hcp : pd = None \/ pd <> cd).
  { destruct pd as [rp|]; [right|by left]. intros <-.
    specialize (G2 rp eq_refl). specialize (B1 rp eq_refl). lia. }
  assert (Htp : ct = None \/ ct <> pd).
  { destruct ct as [rc|]; [right|by left]. intros <-.
    specialize (G3 rc eq_refl). specialize (B2 rc eq_refl). lia. }
  unfold leg_view; simpl. split; [|split; [|split]].
  - rewrite (K4 ct B3 Htp), F3, (K2 cd B1), F1. done.
  - by rewrite F4, (K3 pd B2 Hcp), F2, S1.
  - by eapply bounded_mono.
  - done.
Qed.

Lemma bind_run {S A B} (c : X S A) (k : A -> X S B) (s s' : S) (a : A) :
  c s = (Some a, s') -> bind c k s = k a s'.
Proof. unfold bind. by intros ->. Qed.

Lemma get_self_run (m : Machine) : get_self m = (Some (self m), m).
Proof. done. Qed.

Lemma selected_winning (sid nse c p : option string) :
  selected rt sid nse = Some (c, p) ->
  exists e, winning_entry rt sid nse = Some e
            /\ c = leg_id (callOption e) /\ p = leg_id (putOption e)
            /\ truthy c = true /\ truthy p = true.
Proof.
  unfold selected. destruct (winning_entry rt sid nse) as [e|]; [|done].
  destruct (truthy (leg_id (callOption e))) eqn:Hc; [|done].
  destruct (truthy (leg_id (putOption e))) eqn:Hp; [|done].
  intros [= <- <-]. by exists e.
Qed.

(** The full-series view is a function of the runtime and of the
    constructor arguments of the analyzer, whatever the machine holds. *)
Lemma analyze_run (m : Machine) :
  exists res m',
    analyze rt m = (Some res, m')
    /\ view_analyze (Some res, m') = analysis rt (self m)
    /\ inputs (self m') = inputs (self m).
Proof.
  destruct (fetch_ticker_details_run m) as (m1 & E1 & H1 & I1 & R1 & _).
  unfold analyze, analysis. erewrite bind_run by exact E1.
  destruct (resolved rt (company_name (self m))) as [[sid nse]|]; simpl;
    [|by eexists _, _].
  destruct (R1 _ eq_refl) as [Rs Rn]. simpl in Rs, Rn.
  destruct (fetch_closest_contract_ids_run m1) as (m2 & E2 & H2 & I2 & W2 & _).
  erewrite bind_run by exact E2. rewrite Rs, Rn in *.
  destruct (selected rt sid nse) as [[c p]|] eqn:Hsel; simpl;
    [|eexists _, _; split; [reflexivity|]; split; [done | congruence]].
  destruct (selected_winning _ _ _ _ Hsel) as (e & He & -> & -> & _).
  destruct (W2 e He) as [Wc Wp].
  destruct (legs_run m2)
    as (cd & pd & ct & pt & m3 & m4 & m5 & m6
        & E3 & E4 & E5 & E6 & S3 & S6 & Fc & Fp & _).
  erewrite bind_run by apply get_self_run.
  erewrite bind_run by exact E3.
  erewrite bind_run by apply get_self_run.
  erewrite bind_run by exact E4.
  erewrite bind_run by exact E5.
  erewrite bind_run by exact E6.
  erewrite bind_run by apply get_self_run.
  eexists _, m6. split; [reflexivity|]. split; [|congruence].
  unfold view_analyze, view_leg; simpl.
  change (match ct with Some r => heap m6 !! r | None => None end)
    with (frame_at (heap m6) ct).
  change (match pt with Some r => heap m6 !! r | None => None end)
    with (frame_at (heap m6) pt).
  rewrite Fc, Fp, S6, Wc, Wp. unfold leg_view.
  assert (I : inputs (self m2) = inputs (self m)) by congruence.
  by rewrite !(price_frame_inputs _ _ _ I).
Qed.

Lemma latest_row_run (technical : option ref) (m : Machine) :
  bounded (heap m) technical ->
  latest_row technical m
  = (Some (frame_at (heap m) technical ≫= iloc_last_to_dict), m).
Proof.
  intros Hb. destruct technical as [r|]; [|done].
  unfold latest_row. xunfold. simpl.
  destruct (heap m !! r) as [df|] eqn:Hr; simpl.
  - unfold is_empty, iloc_last_to_dict.
    destruct (df_rows df) as [|row rows] eqn:Hrows; [done|].
    destruct (last_is_Some (row :: rows)) as [_ [x ->]]; done.
  - apply lookup_ge_None in Hr. specialize (Hb r eq_refl). lia.
Qed.

Lemma tag_contract_project (h : list DataFrame) (technical : option ref)
    (id : option string) :
  tag_contract (frame_at h technical ≫= iloc_last_to_dict) id
  = project_latest {| series := frame_at h technical; leg_contract := id |}.
Proof.
  unfold project_latest; simpl.
  destruct (frame_at h technical) as [df|]; [|done]. simpl.
  unfold iloc_last_to_dict. by destruct (list.last (df_rows df)).
Qed.

(** The summary view is the projection of the full-series view. *)
Lemma analysis_summary_run (m : Machine) :
  exists m',
    analysis_summary rt m = (Some (summary_of_view (analysis rt (self m))), m').
Proof.
  destruct (fetch_ticker_details_run m) as (m1 & E1 & H1 & I1 & R1 & _).
  unfold analysis_summary, analysis. erewrite bind_run by exact E1.
  destruct (resolved rt (company_name (self m))) as [[sid nse]|]; simpl;
    [|by eexists].
  destruct (R1 _ eq_refl) as [Rs Rn]. simpl in Rs, Rn.
  destruct (fetch_closest_contract_ids_run m1) as (m2 & E2 & H2 & I2 & W2 & _).
  erewrite bind_run by exact E2. rewrite Rs, Rn in *.
  destruct (selected rt sid nse) as [[c p]|] eqn:Hsel; simpl; [|by eexists].
  destruct (selected_winning _ _ _ _ Hsel) as (e & He & -> & -> & _).
  destruct (W2 e He) as [Wc Wp].
  destruct (legs_run m2)
    as (cd & pd & ct & pt & m3 & m4 & m5 & m6
        & E3 & E4 & E5 & E6 & S3 & S6 & Fc & Fp & Bc & Bp).
  erewrite bind_run by apply get_self_run.
  erewrite bind_run by exact E3.
  erewrite bind_run by apply get_self_run.
  erewrite bind_run by exact E4.
  erewrite bind_run by exact E5.
  erewrite bind_run by exact E6.
  erewrite bind_run by (by apply latest_row_run).
  erewrite bind_run by (by apply latest_row_run).
  erewrite bind_run by apply get_self_run.
  eexists. unfold ret. f_equal. f_equal. f_equal.
  rewrite !tag_contract_project, Fc, Fp, S6, Wc, Wp. unfold leg_view.
  assert (I : inputs (self m2) = inputs (self m)) by congruence.
  by rewrite !(price_frame_inputs _ _ _ I).
Qed.
End Runs.

(** ** Frames: columns, [dropna] *)

Lemma assoc_set_eq {V} (k : string) (v : V) (l : list (string * V)) :
  assoc k (assoc_set k v l) = Some v.
Proof.
  induction l as [|[k' v'] l IH]; simpl.
  - by rewrite String.eqb_refl.
  - destruct (String.eqb k' k) eqn:E; simpl; by rewrite E.
Qed.

Lemma assoc_set_ne {V} (k k' : string) (v : V) (l : list (string * V)) :
  k <> k' -> assoc k (assoc_set k' v l) = assoc k l.
Proof.
  intros Hne. induction l as [|[k0 v0] l IH]; simpl.
  - destruct (String.eqb k' k) eqn:E; [|done].
    apply String.eqb_eq in E. congruence.
  - destruct (String.eqb k0 k') eqn:E; simpl; [|by rewrite IH].
    apply String.eqb_eq in E. subst k0.
    destruct (String.eqb k' k) eqn:E'; [|done].
    apply String.eqb_eq in E'. congruence.
Qed.

Lemma getitem_setitem_eq (name : string) (s : Series) (df : DataFrame) :
  getitem name (setitem name s df) = Some (resize (len df) None s).
Proof. apply assoc_set_eq. Qed.

Lemma getitem_setitem_ne (name name' : string) (s : Series) (df : DataFrame) :
  name <> name' -> getitem name (setitem name' s df) = getitem name df.
Proof. apply assoc_set_ne. Qed.

Lemma len_setitem (name : string) (s : Series) (df : DataFrame) :
  len (setitem name s df) = len df.
Proof. done. Qed.

(** A complete row is defined in every column that can be read by name. *)
Lemma row_complete_getitem (df : DataFrame) (i : nat) (name : string)
    (s : Series) :
  row_complete df i = true -> getitem name df = Some s ->
  cell_defined s i = true.
Proof.
  unfold row_complete, getitem.
  induction (df_columns df) as [|[k c] l IH]; simpl; [done|].
  intros [Hc Hl]%andb_true_iff.
  destruct (String.eqb k name); [by intros [= <-] | by apply IH].
Qed.


Lemma kept_rows_complete (df : DataFrame) (i : nat) :
  i ∈ kept_rows df -> row_complete df i = true /\ i < len df.
Proof.
  unfold kept_rows. rewrite list_elem_of_filter, elem_of_seq. intros [? ?].
  split; [done | lia].
Qed.

Lemma length_take_rows {A} (rows : list nat) (l : list A) :
  Forall (fun i => i < length l) rows -> length (take_rows rows l) = length rows.
Proof.
  unfold take_rows. induction 1 as [|i rows Hi _ IH]; simpl; [done|].
  destruct (lookup_lt_is_Some_2 l i Hi) as [x ->]. simpl. by f_equal.
Qed.

(** [dropna] keeps as many rows as there are complete positions. *)
Lemma len_dropna (df : DataFrame) : len (dropna df) = length (kept_rows df).
Proof.
  unfold len, dropna; simpl. apply length_take_rows.
  apply Forall_forall. intros i Hi.
  apply list_elem_of_In, kept_rows_complete in Hi. apply Hi.
Qed.


Lemma filter_none {A} (P : A -> Prop) `{!forall x, Decision (P x)} (l : list A) :
  Forall (fun x => ~ P x) l -> filter P l = [].
Proof. induction 1; [done|]. by rewrite filter_cons_False. Qed.

(** Positions below [k] that are never complete are all dropped. *)
Lemma kept_rows_skip (df : DataFrame) (k : nat) :
  (forall i, i < k -> row_complete df i = false) ->
  k <= len df -> length (kept_rows df) <= len df - k.
Proof.
  intros Hk Hle. unfold kept_rows.
  replace (len df) with (k + (len df - k)) at 1 by lia.
  rewrite seq_app, list.filter_app, length_app, filter_none.
  - simpl. etrans; [apply length_filter|]. by rewrite length_seq.
  - apply Forall_forall. intros i Hi%list_elem_of_In%elem_of_seq.
    rewrite Hk by lia. done.
Qed.

(** ** The statements that derive the columns *)

(** Runs [derive_columns] on a symbolic frame: a case per expression that
    may raise. *)
Ltac derive_cases :=
  unfold derive_columns, col, assign; xunfold;
  repeat match goal with
         | |- context [match getitem ?n ?d with _ => _ end] =>
             destruct (getitem n d) eqn:?; cbv beta match
         | |- context [match RSIIndicator ?l ?c ?w with _ => _ end] =>
             destruct (RSIIndicator l c w); cbv beta match
         | |- context [match BollingerBands ?l ?c ?w with _ => _ end] =>
             destruct (BollingerBands l c w); cbv beta match
         | |- context [match MACD ?l ?c ?a ?b ?d with _ => _ end] =>
             destruct (MACD l c a b d); cbv beta match
         | |- context [match ADXIndicator ?l ?h ?lo ?c ?w with _ => _ end] =>
             destruct (ADXIndicator l h lo c w); cbv beta match
         | |- context [match TSIIndicator ?l ?c ?a ?b with _ => _ end] =>
             destruct (TSIIndicator l c a b) eqn:?; cbv beta match
         end.

(** The statements keep the rows of the frame and every column they do
    not name, also when one of them raises. *)
Lemma derive_columns_keeps (rt : Runtime) (df : DataFrame) :
  df_rows (derive_columns rt df).2 = df_rows df
  /\ forall name, name ∉ derived_names ->
       getitem name (derive_columns rt df).2 = getitem name df.
Proof.
  split.
  - derive_cases; reflexivity.
  - intros name Hname.
    assert (Hne : forall d, d ∈ derived_names -> name <> d)
      by (intros d Hd ->; done).
    unfold derived_names in Hne.
    derive_cases; simpl;
      rewrite ?getitem_setitem_ne
        by (apply Hne; repeat (apply list_elem_of_here
                               || apply list_elem_of_further));
      reflexivity.
Qed.


(** When no statement raises, the frame holds under ["TSI"] what the
    package returned, aligned on its rows. *)
Lemma derive_columns_tsi (rt : Runtime) (df df' : DataFrame) :
  derive_columns rt df = (Some tt, df') ->
  exists close tsi,
    TSIIndicator (ta rt) close 25 13 = Some tsi
    /\ getitem "TSI" df' = Some (resize (len df) None tsi).
Proof.
  revert df'. derive_cases; intros df' [= <-].
  eexists _, _. split; [eassumption|]. by rewrite getitem_setitem_eq.
Qed.

Lemma warm_up_undefined (j n i : nat) (s : list (option Q)) :
  i < j -> cell_defined (resize n None (warm_up j s)) i = false.
Proof.
  intros Hi. unfold cell_defined.
  destruct (decide (i < n)) as [Hn|Hn];
    [|by rewrite lookup_resize_old by lia].
  destruct (decide (i < length (warm_up j s))) as [Hl|Hl];
    [|by rewrite lookup_resize_new by lia].
  rewrite lookup_resize by done. unfold warm_up.
  rewrite list_lookup_imap. destruct (s !! i); simpl; [|done].
  by destruct (Nat.ltb_spec i j); [|lia].
Qed.

(** Under the default mode of [ta], whatever numbers the package computes,
    the first 37 rows (all of them for a shorter series) are dropped: the
    true-strength column (slow 25, fast 13) is undefined there. *)
Lemma default_mode_drops (g : Gateway) (clock : Z -> option string)
    (k : TaLib) (df out : DataFrame) :
  indicator_frame {| gateway := g; fromtimestamp := clock;
                     ta := default_mode k |} df = Some out ->
  len out <= len df - 37.
Proof.
  set (rt := {| gateway := g; fromtimestamp := clock; ta := default_mode k |}).
  unfold indicator_frame. destruct (len df <? 20); [done|].
  destruct (derive_columns rt df) as [[[]|] df1] eqn:Hd; [|done].
  intros [= <-].
  destruct (derive_columns_keeps rt df) as [Hrows _].
  rewrite Hd in Hrows. simpl in Hrows.
  assert (Hlen1 : len df1 = len df) by (unfold len; by rewrite Hrows).
  destruct (derive_columns_tsi rt df df1 Hd) as (close & tsi & Htsi & Hcol).
  simpl in Htsi. destruct (TSIIndicator k close 25 13) as [x|]; [|done].
  injection Htsi as <-. rewrite len_dropna.
  assert (Hundef : forall i, i < 37 -> row_complete df1 i = false).
  { intros i Hi. destruct (row_complete df1 i) eqn:Hrow; [|done].
    pose proof (row_complete_getitem df1 i _ _ Hrow Hcol) as Hcell.
    rewrite warm_up_undefined in Hcell by (simpl; lia). done. }
  destruct (decide (37 <= len df1)) as [Hge|Hlt].
  - rewrite <- Hlen1. by apply kept_rows_skip.
  - assert (length (kept_rows df1) <= len df1 - len df1); [|lia].
    apply kept_rows_skip; [|lia]. intros i Hi. apply Hundef. lia.
Qed.

(** ** Indicator derivation *)

(** *** C7 *)

(** C7: given no series, or a series of fewer than 20 candles,
    [calculate_technical_indicators] returns [None] (Insufficient): it
    raises nothing, shows one warning and no error, and leaves the
    analyzer and every frame as they were. *)
Theorem C7_short_series_insufficient (rt : Runtime) (m : Machine)
    (data_ : option ref) :
  (data_ = None
   \/ exists r df, data_ = Some r /\ heap m !! r = Some df /\ len df < 20) ->
  calculate_technical_indicators rt data_ m
  = (Some None, with_trace (fun t => t ++ [StWarning NotEnoughData]) m).
Proof.
  intros [->|(r & df & -> & Hr & Hlen)]; [done|].
  unfold calculate_technical_indicators. xunfold. rewrite Hr.
  by destruct (Nat.ltb_spec (len df) 20); [|lia].
Qed.

Lemma C7_short_series_insufficient_witness :
  calculate_technical_indicators (sample_runtime sample_chain 15) (Some 0)
    (machine_with (sample_frame 15))
  = (Some None,
     with_trace (fun t => t ++ [StWarning NotEnoughData])
       (machine_with (sample_frame 15))).
Proof.
  apply (C7_short_series_insufficient (sample_runtime sample_chain 15)
           (machine_with (sample_frame 15)) (Some 0)).
  right. exists 0, (sample_frame 15).
  split; [reflexivity|]. split; [reflexivity|]. vm_compute. lia.
Defined.

(** *** C2 *)




(** *** C10 *)

(** The claim fails: after the derivation the frame that was passed in
    holds the derived columns too. *)
Lemma C10_counterexample :
  ~ (forall rt m r,
       heap (calculate_technical_indicators rt (Some r) m).2 !! r = heap m !! r).
Proof.
  intros H.
  specialize (H (sample_runtime sample_chain 40)
                (machine_with (sample_frame 40)) 0).
  apply (f_equal (fmap (fun df => length (df_columns df)))) in H.
  vm_compute in H. discriminate.
Qed.

(** C10 (amended): [calculate_technical_indicators] writes the derived
    columns into the frame it is given, in place: that frame keeps its rows
    and every column that is not a derived one, and is left as it was when
    it has fewer than 20 rows.  The frame it returns is a new object, and
    no other frame and no field of the analyzer changes. *)
Theorem C10_derivation_frame (rt : Runtime) (m : Machine) (r : ref)
    (df : DataFrame) :
  heap m !! r = Some df ->
  exists res m' df',
    calculate_technical_indicators rt (Some r) m = (Some res, m')
    /\ self m' = self m
    /\ heap m' !! r = Some df'
    /\ df_rows df' = df_rows df
    /\ (forall name, name ∉ derived_names -> getitem name df' = getitem name df)
    /\ (len df < 20 -> df' = df)
    /\ (forall out, res = Some out -> length (heap m) <= out /\ out <> r)
    /\ (forall r', r' <> r -> r' < length (heap m) ->
          heap m' !! r' = heap m !! r').
Proof.
  intros Hr.
  assert (Hlt : r < length (heap m)) by (by eapply lookup_lt_Some).
  destruct (calculate_technical_indicators_run rt (Some r) m)
    as (m' & E & Hs & Hh).
  unfold touched, frame_at in Hh. rewrite Hr in Hh.
  eexists _, m', (mutated rt df). split; [exact E|]. split; [done|].
  rewrite Hh.
  split. { rewrite lookup_app_l by (by rewrite length_insert).
           by apply list_lookup_insert_eq. }
  unfold mutated.
  split. { destruct (len df <? 20); [done|]. apply derive_columns_keeps. }
  split. { destruct (len df <? 20); [done|]. apply derive_columns_keeps. }
  split. { intros Hlen. by destruct (Nat.ltb_spec (len df) 20); [|lia]. }
  split.
  { intros out. destruct (frame_at _ _ ≫= _); [|done]. intros [= <-]. lia. }
  intros r' Hne Hr'.
  rewrite lookup_app_l by (by rewrite length_insert).
  by apply list_lookup_insert_ne.
Qed.

Lemma C10_derivation_frame_witness :
  exists res m' df',
    calculate_technical_indicators (sample_runtime sample_chain 40) (Some 0)
      (machine_with (sample_frame 40)) = (Some res, m')
    /\ self m' = self (machine_with (sample_frame 40))
    /\ heap m' !! 0 = Some df'
    /\ df_rows df' = df_rows (sample_frame 40)
    /\ (forall name, name ∉ derived_names ->
          getitem name df' = getitem name (sample_frame 40))
    /\ (len (sample_frame 40) < 20 -> df' = sample_frame 40)
    /\ (forall out, res = Some out ->
          length (heap (machine_with (sample_frame 40))) <= out /\ out <> 0)
    /\ (forall r', r' <> 0 ->
          r' < length (heap (machine_with (sample_frame 40))) ->
          heap m' !! r' = heap (machine_with (sample_frame 40)) !! r').
Proof.
  apply (C10_derivation_frame (sample_runtime sample_chain 40)
           (machine_with (sample_frame 40)) 0 (sample_frame 40)).
  reflexivity.
Defined.

(** ** Candle retrieval *)

(** *** C8 *)

(** C8: for an absent contract id ([None], or the empty string, which
    Python treats alike) [fetch_contract_price_details] returns [None]
    (Empty) and leaves the machine as it was: nothing is raised, no
    message is shown and the number of candle-history calls is
    unchanged. *)
Theorem C8_absent_contract_short_circuit (rt : Runtime) (m : Machine)
    (contract_id : option string) :
  truthy contract_id = false ->
  fetch_contract_price_details rt contract_id m = (Some None, m)
  /\ count_events is_candle_call
       (trace (fetch_contract_price_details rt contract_id m).2)
     = count_events is_candle_call (trace m).
Proof.
  intros Hid. unfold fetch_contract_price_details. xunfold.
  by rewrite Hid.
Qed.

Lemma C8_absent_contract_short_circuit_witness :
  fetch_contract_price_details (sample_runtime sample_chain 40) None
    (fresh "ACME") = (Some None, fresh "ACME")
  /\ count_events is_candle_call
       (trace (fetch_contract_price_details (sample_runtime sample_chain 40)
                 None (fresh "ACME")).2)
     = count_events is_candle_call (trace (fresh "ACME")).
Proof.
  apply (C8_absent_contract_short_circuit (sample_runtime sample_chain 40)
           (fresh "ACME") None).
  reflexivity.
Defined.

(** ** The two views *)

(** *** C9 *)

(** C9: when the search answers with an empty list,
    [fetch_ticker_details] returns [False] (NotFound), [analyze] returns
    no result, so both legs are absent, and the run consists of the search
    call and one warning: no candle-history call is issued. *)
Theorem C9_unknown_company (rt : Runtime) (m : Machine) :
  searchSecurity (gateway rt) (company_name (self m)) = Ok [] ->
  (fetch_ticker_details rt m).1 = Some false
  /\ (analyze rt m).1 = Some None
  /\ leg_absent (fst <$> view_analyze (analyze rt m))
  /\ leg_absent (snd <$> view_analyze (analyze rt m))
  /\ trace (analyze rt m).2
     = trace m ++ [SearchSecurity (company_name (self m));
                   StWarning (NoResults (company_name (self m)))]
  /\ count_events is_candle_call (trace (analyze rt m).2)
     = count_events is_candle_call (trace m).
Proof.
  intros Hsearch.
  assert (E : fetch_ticker_details rt m
              = (Some false,
                 with_trace
                   (fun t => t ++ [StWarning (NoResults (company_name (self m)))])
                   (with_trace
                      (fun t => t ++ [SearchSecurity (company_name (self m))])
                      m))).
  { unfold fetch_ticker_details. xunfold. simpl. by rewrite Hsearch. }
  unfold analyze. erewrite bind_run by exact E. rewrite E. simpl.
  repeat split; try done.
  - by rewrite <- app_assoc.
  - unfold count_events. rewrite !List.filter_app, !length_app. simpl. lia.
Qed.

Lemma C9_unknown_company_witness :
  (fetch_ticker_details unknown_runtime (fresh "ACME")).1 = Some false
  /\ (analyze unknown_runtime (fresh "ACME")).1 = Some None
  /\ leg_absent (fst <$> view_analyze (analyze unknown_runtime (fresh "ACME")))
  /\ leg_absent (snd <$> view_analyze (analyze unknown_runtime (fresh "ACME")))
  /\ trace (analyze unknown_runtime (fresh "ACME")).2
     = trace (fresh "ACME")
         ++ [SearchSecurity (company_name (self (fresh "ACME")));
             StWarning (NoResults (company_name (self (fresh "ACME"))))]
  /\ count_events is_candle_call
       (trace (analyze unknown_runtime (fresh "ACME")).2)
     = count_events is_candle_call (trace (fresh "ACME")).
Proof.
  apply (C9_unknown_company unknown_runtime (fresh "ACME")). reflexivity.
Defined.

(** *** C6 *)

(** C6: [analyze] called a second time on the same analyzer, against the
    same runtime, shows the caller what the first call showed: the same
    contract ids and frames with the same contents.  Neither call raises,
    and nothing the first call left on the analyzer or the heap changes
    the second. *)
Theorem C6_analyze_twice_identical (rt : Runtime) (m : Machine) :
  view_analyze (analyze rt (analyze rt m).2) = view_analyze (analyze rt m)
  /\ is_Some (analyze rt m).1
  /\ is_Some (analyze rt (analyze rt m).2).1.
Proof.
  destruct (analyze_run rt m) as (res1 & m1 & E1 & V1 & I1).
  destruct (analyze_run rt m1) as (res2 & m2 & E2 & V2 & I2).
  rewrite E1. simpl. rewrite E2. simpl.
  split; [|by split; eexists].
  rewrite V1, V2. by apply analysis_inputs.
Qed.

(** *** C5 *)


(** *** C4 *)



(** ** Selection with a missing leg *)

(** *** C3 *)




(** * Further properties of the methods *)

(** ** Ticker resolution *)

(** X1: Only the first ranked result counts: [fetch_ticker_details] stores its
    two ids, whatever they are, and returns [True] exactly when both are
    present; the results after it are not looked at. *)
Theorem ticker_first_result_only (rt : Runtime) (m : Machine)
    (item : SearchItem) (rest : list SearchItem) :
  searchSecurity (gateway rt) (company_name (self m)) = Ok (item :: rest) ->
  (fetch_ticker_details rt m).1
  = Some (truthy (item_search_id item) && truthy (item_nse_scrip_code item))
  /\ search_id (self (fetch_ticker_details rt m).2) = item_search_id item
  /\ nse_scrip_code (self (fetch_ticker_details rt m).2)
     = item_nse_scrip_code item.
Proof.
  intros Hs. unfold fetch_ticker_details. xunfold. simpl. rewrite Hs. simpl.
  by destruct (truthy (item_search_id item)),
       (truthy (item_nse_scrip_code item)).
Qed.

Lemma ticker_first_result_only_witness :
  (fetch_ticker_details
     {| gateway :=
          {| searchSecurity _ :=
               Ok [ {| item_search_id := Some "acme-ltd";
                       item_nse_scrip_code := None |};
                    {| item_search_id := Some "acme-corp";
                       item_nse_scrip_code := Some "ACMEC" |} ];
             listOptionChain _ := Ok sample_chain;
             latestPrice _ := Ok (Some (float_of_int 101));
             candleHistory _ _ _ _ := Ok (sample_candles 40) |};
        fromtimestamp := sample_clock;
        ta := default_mode ta_flat |} (fresh "ACME")).1
  = Some (truthy (Some "acme-ltd") && truthy None)
  /\ search_id
       (self (fetch_ticker_details
                {| gateway :=
                     {| searchSecurity _ :=
                          Ok [ {| item_search_id := Some "acme-ltd";
                                  item_nse_scrip_code := None |};
                               {| item_search_id := Some "acme-corp";
                                  item_nse_scrip_code := Some "ACMEC" |} ];
                        listOptionChain _ := Ok sample_chain;
                        latestPrice _ := Ok (Some (float_of_int 101));
                        candleHistory _ _ _ _ := Ok (sample_candles 40) |};
                   fromtimestamp := sample_clock;
                   ta := default_mode ta_flat |} (fresh "ACME")).2)
     = Some "acme-ltd"
  /\ nse_scrip_code
       (self (fetch_ticker_details
                {| gateway :=
                     {| searchSecurity _ :=
                          Ok [ {| item_search_id := Some "acme-ltd";
                                  item_nse_scrip_code := None |};
                               {| item_search_id := Some "acme-corp";
                                  item_nse_scrip_code := Some "ACMEC" |} ];
                        listOptionChain _ := Ok sample_chain;
                        latestPrice _ := Ok (Some (float_of_int 101));
                        candleHistory _ _ _ _ := Ok (sample_candles 40) |};
                   fromtimestamp := sample_clock;
                   ta := default_mode ta_flat |} (fresh "ACME")).2)
     = None.
Proof.
  apply (ticker_first_result_only _ (fresh "ACME")
           {| item_search_id := Some "acme-ltd"; item_nse_scrip_code := None |}
           [ {| item_search_id := Some "acme-corp";
                item_nse_scrip_code := Some "ACMEC" |} ]).
  reflexivity.
Defined.

(** X2: Whatever the search answers, [fetch_ticker_details] never raises,
    issues exactly one gateway call, the search for the company name,
    shows at most one message, and changes neither a frame, nor the
    contract ids, nor the constructor arguments of the analyzer. *)
Theorem ticker_effects (rt : Runtime) (m : Machine) :
  exists found msgs,
    (fetch_ticker_details rt m).1 = Some found
    /\ trace (fetch_ticker_details rt m).2
       = trace m ++ SearchSecurity (company_name (self m)) :: msgs
    /\ forallb is_message msgs = true
    /\ length msgs <= 1
    /\ (found = true -> msgs = [])
    /\ heap (fetch_ticker_details rt m).2 = heap m
    /\ inputs (self (fetch_ticker_details rt m).2) = inputs (self m)
    /\ call_contract_id (self (fetch_ticker_details rt m).2)
       = call_contract_id (self m)
    /\ put_contract_id (self (fetch_ticker_details rt m).2)
       = put_contract_id (self m).
Proof.
  unfold fetch_ticker_details. xunfold. simpl.
  destruct (searchSecurity (gateway rt) (company_name (self m)))
    as [|[|item items]]; simpl;
    [| | destruct (truthy (item_search_id item)),
           (truthy (item_nse_scrip_code item)); simpl];
    (eexists _, _; split; [reflexivity|];
     split; [rewrite <- ?app_assoc; reflexivity|];
     repeat split; simpl; done || lia).
Qed.

(** ** Contract selection *)

(** X3: When [fetch_closest_contract_ids] returns [True], both contract ids
    on the analyzer are present, and the run consisted of the option-chain
    call followed by the latest-price call, with no message. *)
Theorem selection_success (rt : Runtime) (m : Machine) :
  (fetch_closest_contract_ids rt m).1 = Some true ->
  truthy (call_contract_id (self (fetch_closest_contract_ids rt m).2)) = true
  /\ truthy (put_contract_id (self (fetch_closest_contract_ids rt m).2)) = true
  /\ trace (fetch_closest_contract_ids rt m).2
     = trace m ++ [ListOptionChain (fstr (search_id (self m)));
                   LatestPrice (fstr (nse_scrip_code (self m)))].
Proof.
  unfold fetch_closest_contract_ids. xunfold. simpl.
  destruct (listOptionChain (gateway rt) (fstr (search_id (self m))))
    as [|[|x l]]; simpl; [done | done |].
  destruct (latestPrice (gateway rt) (fstr (nse_scrip_code (self m))))
    as [|[p|]]; simpl; [done | | done].
  destruct (truthy (leg_id (callOption (min_from (distance p) x l)))) eqn:Hc,
    (truthy (leg_id (putOption (min_from (distance p) x l)))) eqn:Hp;
    simpl; try done.
  intros _. by rewrite <- app_assoc.
Qed.

Lemma selection_success_witness :
  truthy (call_contract_id
            (self (fetch_closest_contract_ids (sample_runtime sample_chain 40)
                     (fresh "ACME")).2)) = true
  /\ truthy (put_contract_id
               (self (fetch_closest_contract_ids
                        (sample_runtime sample_chain 40) (fresh "ACME")).2))
     = true
  /\ trace (fetch_closest_contract_ids (sample_runtime sample_chain 40)
              (fresh "ACME")).2
     = trace (fresh "ACME")
         ++ [ListOptionChain (fstr (search_id (self (fresh "ACME"))));
             LatestPrice (fstr (nse_scrip_code (self (fresh "ACME"))))].
Proof.
  apply (selection_success (sample_runtime sample_chain 40) (fresh "ACME")).
  reflexivity.
Defined.

(** X4: When no entry can be selected (the chain request fails or lists
    nothing, the price request fails or carries no price),
    [fetch_closest_contract_ids] returns [False] and leaves the analyzer
    as it was, contract ids of an earlier run included; the latest price
    is requested only after a non-empty chain. *)
Theorem selection_without_entry (rt : Runtime) (m : Machine) :
  winning_entry rt (search_id (self m)) (nse_scrip_code (self m)) = None ->
  (fetch_closest_contract_ids rt m).1 = Some false
  /\ self (fetch_closest_contract_ids rt m).2 = self m
  /\ heap (fetch_closest_contract_ids rt m).2 = heap m
  /\ exists msg,
       is_message msg = true
       /\ trace (fetch_closest_contract_ids rt m).2
          = trace m
              ++ ListOptionChain (fstr (search_id (self m)))
              :: (if listOptionChain (gateway rt) (fstr (search_id (self m)))
                  is Ok (_ :: _)
                  then [LatestPrice (fstr (nse_scrip_code (self m))); msg]
                  else [msg]).
Proof.
  unfold winning_entry, fetch_closest_contract_ids. xunfold. simpl.
  destruct (listOptionChain (gateway rt) (fstr (search_id (self m))))
    as [|[|x l]]; simpl;
    [intros _ | intros _
    | destruct (latestPrice (gateway rt) (fstr (nse_scrip_code (self m))))
        as [|[p|]]; simpl; [intros _ | done | intros _]];
    (split; [done|]; split; [by destruct m|]; split; [done|];
     eexists; split; [|rewrite <- ?app_assoc; reflexivity]; done).
Qed.

Lemma selection_without_entry_witness :
  (fetch_closest_contract_ids (sample_runtime [] 40) (fresh "ACME")).1
  = Some false
  /\ self (fetch_closest_contract_ids (sample_runtime [] 40) (fresh "ACME")).2
     = self (fresh "ACME")
  /\ heap (fetch_closest_contract_ids (sample_runtime [] 40) (fresh "ACME")).2
     = heap (fresh "ACME")
  /\ exists msg,
       is_message msg = true
       /\ trace (fetch_closest_contract_ids (sample_runtime [] 40)
                   (fresh "ACME")).2
          = trace (fresh "ACME")
              ++ ListOptionChain (fstr (search_id (self (fresh "ACME"))))
              :: (if listOptionChain (gateway (sample_runtime [] 40))
                       (fstr (search_id (self (fresh "ACME"))))
                  is Ok (_ :: _)
                  then [LatestPrice
                          (fstr (nse_scrip_code (self (fresh "ACME")))); msg]
                  else [msg]).
Proof.
  apply (selection_without_entry (sample_runtime [] 40) (fresh "ACME")).
  reflexivity.
Defined.

(** ** Candle retrieval *)

Lemma format_candles_rows (clock : Z -> option string) (cs : list Candle)
    (rows : list (string * Candle)) :
  mapM (format_candle clock) cs = Some rows ->
  map snd rows = cs
  /\ Forall2 (fun c t => clock (c_time c) = Some t) cs (map fst rows).
Proof.
  rewrite mapM_Some. induction 1 as [|c row cs rows Hrow _ [IH1 IH2]]; simpl.
  - split; [done | constructor].
  - unfold format_candle in Hrow.
    destruct (clock (c_time c)) as [t|] eqn:Ht; [|done].
    injection Hrow as <-. simpl. split; [by f_equal | by constructor].
Qed.

(** X5: The frame [fetch_contract_price_details] returns is a new object with
    one row per candle, in the order of the answer: the rows are labelled
    0, 1, ... and carry the formatted timestamps, and the columns are
    open, high, low, close and volume with the values of the candles.  It
    is never an empty frame. *)
Theorem price_details_frame (rt : Runtime) (contract_id : option string)
    (m : Machine) (r : ref) :
  (fetch_contract_price_details rt contract_id m).1 = Some (Some r) ->
  exists candles times df,
    candleHistory (gateway rt) (fstr contract_id) (start_epoch (self m))
      (end_epoch (self m)) (interval (self m)) = Ok candles
    /\ Forall2 (fun c t => fromtimestamp rt (c_time c) = Some t) candles times
    /\ r = length (heap m)
    /\ heap (fetch_contract_price_details rt contract_id m).2 = heap m ++ [df]
    /\ df_rows df = zip (seq 0 (length candles)) times
    /\ df_columns df
       = [("open", map c_open candles); ("high", map c_high candles);
          ("low", map c_low candles); ("close", map c_close candles);
          ("volume", map c_volume candles)]
    /\ len df = length candles
    /\ 1 <= len df.
Proof.
  destruct (fetch_contract_price_details_run rt contract_id m)
    as (m' & E & _ & Hh).
  rewrite E. simpl. unfold price_frame in *.
  destruct (truthy contract_id); [|done].
  destruct (candleHistory (gateway rt) (fstr contract_id)
              (start_epoch (self m)) (end_epoch (self m)) (interval (self m)))
    as [|[|c cs]]; [done | done |].
  destruct (mapM (format_candle (fromtimestamp rt)) (c :: cs))
    as [rows|] eqn:Hrows; [|done].
  destruct (format_candles_rows _ _ _ Hrows) as [Hsnd Hfst].
  clear Hrows. intros Hres.
  assert (r = length (heap m)) as -> by (simpl in Hres; congruence).
  simpl in Hh.
  assert (Hlen : length rows = length (c :: cs)).
  { by rewrite <- (length_map snd), Hsnd. }
  exists (c :: cs), (map fst rows), (from_records rows).
  split; [done|]. split; [done|]. split; [done|]. split; [done|].
  unfold from_records, len; cbn [df_rows df_columns].
  split; [by rewrite Hlen|].
  split.
  { rewrite <- Hsnd, !map_map. reflexivity. }
  rewrite length_zip_with, length_seq, length_map, Hlen. simpl. lia.
Qed.

Lemma price_details_frame_witness :
  exists candles times df,
    candleHistory (gateway (sample_runtime sample_chain 3)) (fstr (Some "C100"))
      (start_epoch (self (fresh "ACME"))) (end_epoch (self (fresh "ACME")))
      (interval (self (fresh "ACME"))) = Ok candles
    /\ Forall2 (fun c t =>
                  fromtimestamp (sample_runtime sample_chain 3) (c_time c)
                  = Some t) candles times
    /\ 0 = length (heap (fresh "ACME"))
    /\ heap (fetch_contract_price_details (sample_runtime sample_chain 3)
               (Some "C100") (fresh "ACME")).2 = heap (fresh "ACME") ++ [df]
    /\ df_rows df = zip (seq 0 (length candles)) times
    /\ df_columns df
       = [("open", map c_open candles); ("high", map c_high candles);
          ("low", map c_low candles); ("close", map c_close candles);
          ("volume", map c_volume candles)]
    /\ len df = length candles
    /\ 1 <= len df.
Proof.
  apply (price_details_frame (sample_runtime sample_chain 3) (Some "C100")
           (fresh "ACME") 0).
  reflexivity.
Defined.

(** X6: With a contract id, [fetch_contract_price_details] never raises and
    issues exactly one gateway call, the candle history of that contract
    over the window and interval of the analyzer.  An error message is
    shown only when the request or the formatting of a timestamp fails,
    and then nothing is returned; an answer without candles gives [None]
    with no message.  Without a returned frame the heap is unchanged, and
    the analyzer is never changed. *)
Theorem price_details_effects (rt : Runtime) (contract_id : option string)
    (m : Machine) :
  truthy contract_id = true ->
  exists res msgs,
    (fetch_contract_price_details rt contract_id m).1 = Some res
    /\ trace (fetch_contract_price_details rt contract_id m).2
       = trace m
           ++ CandleHistory (fstr contract_id) (start_epoch (self m))
                (end_epoch (self m)) (interval (self m))
           :: msgs
    /\ (msgs = [] \/ (msgs = [StError (ErrPriceDetails contract_id)]
                      /\ res = None))
    /\ (candleHistory (gateway rt) (fstr contract_id) (start_epoch (self m))
          (end_epoch (self m)) (interval (self m)) = Ok [] ->
        res = None /\ msgs = [])
    /\ (res = None -> heap (fetch_contract_price_details rt contract_id m).2
                      = heap m)
    /\ self (fetch_contract_price_details rt contract_id m).2 = self m.
Proof.
  intros Hid. unfold fetch_contract_price_details. xunfold. rewrite Hid.
  cbv beta match delta [negb].
  destruct (candleHistory (gateway rt) (fstr contract_id)
              (start_epoch (self m)) (end_epoch (self m)) (interval (self m)))
    as [|[|c cs]];
    [| | destruct (mapM (format_candle (fromtimestamp rt)) (c :: cs))];
    (eexists _, _; split; [reflexivity|];
     split; [simpl; rewrite <- ?app_assoc; reflexivity|];
     split; [by (left + right)|]; split; [done|]; split; done).
Qed.

Lemma price_details_effects_witness :
  exists res msgs,
    (fetch_contract_price_details (sample_runtime sample_chain 0)
       (Some "C100") (fresh "ACME")).1 = Some res
    /\ trace (fetch_contract_price_details (sample_runtime sample_chain 0)
                (Some "C100") (fresh "ACME")).2
       = trace (fresh "ACME")
           ++ CandleHistory (fstr (Some "C100"))
                (start_epoch (self (fresh "ACME")))
                (end_epoch (self (fresh "ACME")))
                (interval (self (fresh "ACME")))
           :: msgs
    /\ (msgs = [] \/ (msgs = [StError (ErrPriceDetails (Some "C100"))]
                      /\ res = None))
    /\ (candleHistory (gateway (sample_runtime sample_chain 0))
          (fstr (Some "C100")) (start_epoch (self (fresh "ACME")))
          (end_epoch (self (fresh "ACME"))) (interval (self (fresh "ACME")))
        = Ok [] ->
        res = None /\ msgs = [])
    /\ (res = None ->
        heap (fetch_contract_price_details (sample_runtime sample_chain 0)
                (Some "C100") (fresh "ACME")).2 = heap (fresh "ACME"))
    /\ self (fetch_contract_price_details (sample_runtime sample_chain 0)
               (Some "C100") (fresh "ACME")).2 = self (fresh "ACME").
Proof.
  apply (price_details_effects (sample_runtime sample_chain 0) (Some "C100")
           (fresh "ACME")).
  reflexivity.
Defined.

(** ** Indicator derivation *)

(** A successful derivation, step by step. *)
Lemma derivation_success (rt : Runtime) (m m' : Machine) (r out : ref)
    (df : DataFrame) :
  heap m !! r = Some df ->
  calculate_technical_indicators rt (Some r) m = (Some (Some out), m') ->
  exists df1,
    derive_columns rt df = (Some tt, df1)
    /\ 20 <= len df
    /\ out = length (heap m)
    /\ heap m' = <[r := df1]> (heap m) ++ [dropna df1]
    /\ heap m' !! out = Some (dropna df1).
Proof.
  intros Hr Hrun.
  destruct (calculate_technical_indicators_run rt (Some r) m)
    as (m1 & E & _ & Hh).
  rewrite E in Hrun. unfold touched, frame_at in Hrun, Hh.
  rewrite Hr in Hrun, Hh. simpl in Hrun, Hh.
  unfold indicator_frame, mutated in *.
  destruct (Nat.ltb_spec (len df) 20) as [|Hlen]; [done|].
  destruct (derive_columns rt df) as [[[]|] df1] eqn:Hd; [|done].
  injection Hrun as <- <-. simpl in Hh.
  exists df1. repeat split; try done. rewrite Hh.
  rewrite <- (length_insert (heap m) r df1). apply lookup_snoc_new.
Qed.

Lemma getitem_dropna (name : string) (df : DataFrame) :
  getitem name (dropna df) = take_rows (kept_rows df) <$> getitem name df.
Proof.
  unfold getitem, dropna; simpl.
  induction (df_columns df) as [|[k c] l IH]; simpl; [done|].
  by destruct (String.eqb k name).
Qed.

Lemma column_names_dropna (df : DataFrame) :
  column_names (dropna df) = column_names df.
Proof. unfold column_names, dropna; simpl. by rewrite map_map. Qed.

Lemma take_filter_sublist {A} (P : nat -> Prop) `{!forall i, Decision (P i)}
    (l pre : list A) :
  take_rows (filter P (seq (length pre) (length l))) (pre ++ l) `sublist_of` l.
Proof.
  revert pre. induction l as [|x l IH]; intros pre; simpl; [done|].
  specialize (IH (pre ++ [x])).
  rewrite length_app, Nat.add_1_r, <- app_assoc in IH. simpl in IH.
  destruct (decide (P (length pre))).
  - rewrite filter_cons_True by done. unfold take_rows in *. simpl.
    rewrite list_lookup_middle by done. simpl. by apply sublist_skip.
  - rewrite filter_cons_False by done. by apply sublist_cons.
Qed.

(** The rows [dropna] keeps are rows of the frame, in their order and
    with their labels. *)
Lemma dropna_rows_sublist (df : DataFrame) :
  df_rows (dropna df) `sublist_of` df_rows df.
Proof. apply (take_filter_sublist _ (df_rows df) []). Qed.

Lemma column_names_setitem (name : string) (s : list (option Q))
    (df : DataFrame) :
  column_names (setitem name s df) = names_after name (column_names df).
Proof.
  unfold column_names, setitem; simpl.
  induction (df_columns df) as [|[k c] l IH]; simpl; [done|].
  destruct (String.eqb k name); simpl; by rewrite ?IH.
Qed.

(** A derivation without a raise adds the ten derived columns, in the
    order of the statements, to a frame that has the base columns. *)
Lemma derive_columns_names (rt : Runtime) (df df' : DataFrame) :
  column_names df = base_names ->
  derive_columns rt df = (Some tt, df') ->
  column_names df' = base_names ++ derived_names.
Proof.
  intros Hnames. revert df'. derive_cases; intros df' [= <-].
  rewrite !column_names_setitem, Hnames. reflexivity.
Qed.

(** X7: The frame [calculate_technical_indicators] returns consists of rows
    of the frame it was given: the same labels and timestamps, in the same
    order, and in every column that is not a derived one the values the
    input has in the rows that were kept. *)
Theorem derivation_keeps_values (rt : Runtime) (m m' : Machine) (r out : ref)
    (df : DataFrame) :
  heap m !! r = Some df ->
  calculate_technical_indicators rt (Some r) m = (Some (Some out), m') ->
  exists df_all df_out,
    heap m' !! r = Some df_all
    /\ heap m' !! out = Some df_out
    /\ df_rows df_out `sublist_of` df_rows df
    /\ forall name, name ∉ derived_names ->
         getitem name df_out = take_rows (kept_rows df_all) <$> getitem name df.
Proof.
  intros Hr Hrun.
  destruct (derivation_success rt m m' r out df Hr Hrun)
    as (df1 & Hd & Hlen & -> & Hh & Hout).
  assert (Hlt : r < length (heap m)) by (by eapply lookup_lt_Some).
  destruct (derive_columns_keeps rt df) as [Hrows Hcols].
  rewrite Hd in Hrows, Hcols. simpl in Hrows, Hcols.
  exists df1, (dropna df1).
  split. { rewrite Hh, lookup_app_l by (by rewrite length_insert).
           by apply list_lookup_insert_eq. }
  split; [done|].
  split; [rewrite <- Hrows; apply dropna_rows_sublist|].
  intros name Hname. by rewrite getitem_dropna, Hcols.
Qed.

Lemma derivation_keeps_values_witness :
  exists df_all df_out,
    heap (calculate_technical_indicators (sample_runtime sample_chain 40)
            (Some 0) (machine_with (sample_frame 40))).2 !! 0 = Some df_all
    /\ heap (calculate_technical_indicators (sample_runtime sample_chain 40)
               (Some 0) (machine_with (sample_frame 40))).2 !! 1 = Some df_out
    /\ df_rows df_out `sublist_of` df_rows (sample_frame 40)
    /\ forall name, name ∉ derived_names ->
         getitem name df_out
         = take_rows (kept_rows df_all) <$> getitem name (sample_frame 40).
Proof.
  apply (derivation_keeps_values (sample_runtime sample_chain 40)
           (machine_with (sample_frame 40)) _ 0 1 (sample_frame 40));
    [reflexivity | vm_compute; reflexivity].
Defined.

(** X8: Given a frame with the columns of a fetched frame, the frame
    [calculate_technical_indicators] returns has fifteen float columns:
    open, high, low, close, volume and then the ten derived columns in the
    order in which the source assigns them. *)
Theorem derivation_columns (rt : Runtime) (m m' : Machine) (r out : ref)
    (df : DataFrame) :
  heap m !! r = Some df ->
  column_names df = base_names ->
  calculate_technical_indicators rt (Some r) m = (Some (Some out), m') ->
  exists df_out,
    heap m' !! out = Some df_out
    /\ column_names df_out = base_names ++ derived_names.
Proof.
  intros Hr Hnames Hrun.
  destruct (derivation_success rt m m' r out df Hr Hrun)
    as (df1 & Hd & Hlen & -> & Hh & Hout).
  exists (dropna df1). split; [done|].
  rewrite column_names_dropna. by eapply derive_columns_names.
Qed.

Lemma derivation_columns_witness :
  exists df_out,
    heap (calculate_technical_indicators (sample_runtime sample_chain 40)
            (Some 0) (machine_with (sample_frame 40))).2 !! 1 = Some df_out
    /\ column_names df_out = base_names ++ derived_names.
Proof.
  apply (derivation_columns (sample_runtime sample_chain 40)
           (machine_with (sample_frame 40)) _ 0 1 (sample_frame 40));
    [reflexivity | reflexivity | vm_compute; reflexivity].
Defined.

(** X9: When the [ta] package raises on a series of at least 20 candles,
    [calculate_technical_indicators] catches it: it returns [None], shows
    one error message and creates no frame.  The frame it was given is not
    restored: it holds whatever was assigned before the raise. *)
Theorem derivation_failure (rt : Runtime) (m : Machine) (r : ref)
    (df : DataFrame) :
  heap m !! r = Some df ->
  20 <= len df ->
  (derive_columns rt df).1 = None ->
  (calculate_technical_indicators rt (Some r) m).1 = Some None
  /\ trace (calculate_technical_indicators rt (Some r) m).2
     = trace m ++ [StError ErrIndicators]
  /\ heap (calculate_technical_indicators rt (Some r) m).2
     = <[r := (derive_columns rt df).2]> (heap m)
  /\ self (calculate_technical_indicators rt (Some r) m).2 = self m
  /\ forall close rsi,
       getitem "close" df = Some close ->
       RSIIndicator (ta rt) close 14 = Some rsi ->
       getitem "RSI" (derive_columns rt df).2
       = Some (resize (len df) None rsi).
Proof.
  intros Hr Hlen Hnone.
  split; [|split; [|split; [|split]]].
  1-4: unfold calculate_technical_indicators; xunfold; rewrite Hr;
       cbv beta match; destruct (Nat.ltb_spec (len df) 20); [lia|];
       cbv beta match; rewrite ?Hr; revert Hnone;
       destruct (derive_columns rt df) as [[[]|] df1]; simpl; done.
  clear Hnone. intros close rsi Hclose Hrsi.
  unfold derive_columns, col, assign. xunfold. rewrite Hclose, Hrsi.
  cbv beta match.
  repeat match goal with
         | |- context [match getitem ?n ?d with _ => _ end] =>
             destruct (getitem n d) eqn:?; cbv beta match
         | |- context [match BollingerBands ?l ?c ?w with _ => _ end] =>
             destruct (BollingerBands l c w); cbv beta match
         | |- context [match MACD ?l ?c ?a ?b ?d with _ => _ end] =>
             destruct (MACD l c a b d); cbv beta match
         | |- context [match ADXIndicator ?l ?h ?lo ?c ?w with _ => _ end] =>
             destruct (ADXIndicator l h lo c w); cbv beta match
         | |- context [match TSIIndicator ?l ?c ?a ?b with _ => _ end] =>
             destruct (TSIIndicator l c a b); cbv beta match
         end;
    cbn [snd]; rewrite ?getitem_setitem_ne by done;
    by rewrite getitem_setitem_eq.
Qed.

Lemma derivation_failure_witness :
  (calculate_technical_indicators raising_runtime (Some 0)
     (machine_with (sample_frame 40))).1 = Some None
  /\ trace (calculate_technical_indicators raising_runtime (Some 0)
              (machine_with (sample_frame 40))).2
     = trace (machine_with (sample_frame 40)) ++ [StError ErrIndicators]
  /\ heap (calculate_technical_indicators raising_runtime (Some 0)
             (machine_with (sample_frame 40))).2
     = <[0 := (derive_columns raising_runtime (sample_frame 40)).2]>
         (heap (machine_with (sample_frame 40)))
  /\ self (calculate_technical_indicators raising_runtime (Some 0)
             (machine_with (sample_frame 40))).2
     = self (machine_with (sample_frame 40))
  /\ forall close rsi,
       getitem "close" (sample_frame 40) = Some close ->
       RSIIndicator (ta raising_runtime) close 14 = Some rsi ->
       getitem "RSI" (derive_columns raising_runtime (sample_frame 40)).2
       = Some (resize (len (sample_frame 40)) None rsi).
Proof.
  apply (derivation_failure raising_runtime (machine_with (sample_frame 40)) 0
           (sample_frame 40));
    [reflexivity | vm_compute; lia | vm_compute; reflexivity].
Defined.

(** ** Gateway traffic and the frames of a run *)

Lemma traffic_refl (m : Machine) : traffic m m 0 0.
Proof. exists []. by rewrite app_nil_r. Qed.

Lemma traffic_trans (m1 m2 m3 : Machine) (c1 s1 c2 s2 : nat) :
  traffic m1 m2 c1 s1 -> traffic m2 m3 c2 s2 ->
  traffic m1 m3 (c1 + c2) (s1 + s2).
Proof.
  intros (t1 & E1 & C1 & S1) (t2 & E2 & C2 & S2). exists (t1 ++ t2).
  split; [by rewrite E2, E1, app_assoc|].
  unfold count_events in *. rewrite !List.filter_app, !length_app. lia.
Qed.

Lemma traffic_eq (m m' : Machine) (c s c' s' : nat) :
  traffic m m' c s -> c = c' -> s = s' -> traffic m m' c' s'.
Proof. by intros H <- <-. Qed.

(** Closes a [traffic] goal once the trace is explicit. *)
Ltac traffic_auto :=
  eexists; split;
  [unfold with_trace, with_self, with_heap; simpl; rewrite <- ?app_assoc;
   reflexivity
  | split; reflexivity].

Lemma fetch_ticker_details_traffic (rt : Runtime) (m : Machine) :
  traffic m (fetch_ticker_details rt m).2 0 1.
Proof.
  unfold fetch_ticker_details. xunfold. simpl.
  destruct (searchSecurity (gateway rt) (company_name (self m)))
    as [|[|item items]]; simpl;
    [| | destruct (truthy (item_search_id item)),
           (truthy (item_nse_scrip_code item)); simpl];
    traffic_auto.
Qed.

Lemma fetch_closest_contract_ids_traffic (rt : Runtime) (m : Machine) :
  traffic m (fetch_closest_contract_ids rt m).2 0 0.
Proof.
  unfold fetch_closest_contract_ids. xunfold. simpl.
  destruct (listOptionChain (gateway rt) (fstr (search_id (self m))))
    as [|[|x l]]; simpl;
    [| | destruct (latestPrice (gateway rt) (fstr (nse_scrip_code (self m))))
           as [|[p|]]; simpl;
         [| destruct (truthy (leg_id (callOption (min_from (distance p) x l)))),
              (truthy (leg_id (putOption (min_from (distance p) x l))));
            simpl |]];
    traffic_auto.
Qed.

Lemma fetch_contract_price_details_traffic (rt : Runtime)
    (cid : option string) (m : Machine) :
  traffic m (fetch_contract_price_details rt cid m).2
    (if truthy cid then 1 else 0) 0.
Proof.
  unfold fetch_contract_price_details. xunfold.
  destruct (truthy cid); cbv beta match delta [negb]; [|apply traffic_refl].
  destruct (candleHistory (gateway rt) (fstr cid) (start_epoch (self m))
              (end_epoch (self m)) (interval (self m))) as [|[|c cs]];
    [| | destruct (mapM (format_candle (fromtimestamp rt)) (c :: cs))];
    traffic_auto.
Qed.

Lemma calculate_technical_indicators_traffic (rt : Runtime)
    (data_ : option ref) (m : Machine) :
  traffic m (calculate_technical_indicators rt data_ m).2 0 0.
Proof.
  unfold calculate_technical_indicators. xunfold.
  destruct data_ as [r|]; [|traffic_auto].
  destruct (heap m !! r) as [df|] eqn:Hr; cbv beta match; [|traffic_auto].
  destruct (len df <? 20); cbv beta match; [traffic_auto|].
  rewrite Hr. cbv beta match.
  destruct (derive_columns rt df) as [[[]|] df1]; cbv beta match;
    [|traffic_auto].
  cbn [heap with_heap].
  rewrite list_lookup_insert_eq by (by eapply lookup_lt_Some).
  cbv beta match. exists []. by rewrite app_nil_r.
Qed.

(** The four steps after a successful selection: what they return, the
    frames they leave alone and the calls they issue. *)
Lemma legs_effects (rt : Runtime) (m : Machine) :
  exists cd pd ct pt m1 m2 m3 m4,
    fetch_contract_price_details rt (call_contract_id (self m)) m
    = (Some cd, m1)
    /\ fetch_contract_price_details rt (put_contract_id (self m1)) m1
       = (Some pd, m2)
    /\ calculate_technical_indicators rt cd m2 = (Some ct, m3)
    /\ calculate_technical_indicators rt pd m3 = (Some pt, m4)
    /\ self m1 = self m /\ self m4 = self m
    /\ frame_at (heap m4) ct
       = series (leg_view rt (call_contract_id (self m)) (self m))
    /\ frame_at (heap m4) pt
       = series (leg_view rt (put_contract_id (self m)) (self m))
    /\ bounded (heap m4) ct /\ bounded (heap m4) pt
    /\ length (heap m) <= length (heap m4)
    /\ (forall o, bounded (heap m) o ->
          frame_at (heap m4) o = frame_at (heap m) o)
    /\ traffic m m4
         ((if truthy (call_contract_id (self m)) then 1 else 0)
          + (if truthy (put_contract_id (self m)) then 1 else 0)) 0.
Proof.
  destruct (fetch_contract_price_details_frame rt (call_contract_id (self m)) m)
    as (cd & m1 & E1 & S1 & F1 & G1 & B1 & L1 & K1).
  destruct (fetch_contract_price_details_frame rt
              (put_contract_id (self m1)) m1)
    as (pd & m2 & E2 & S2 & F2 & G2 & B2 & L2 & K2).
  destruct (calculate_technical_indicators_frame rt cd m2)
    as (ct & m3 & E3 & S3 & F3 & G3 & B3 & L3 & K3).
  destruct (calculate_technical_indicators_frame rt pd m3)
    as (pt & m4 & E4 & S4 & F4 & G4 & B4 & L4 & K4).
  pose proof (fetch_contract_price_details_traffic rt
                (call_contract_id (self m)) m) as T1.
  pose proof (fetch_contract_price_details_traffic rt
                (put_contract_id (self m1)) m1) as T2.
  pose proof (calculate_technical_indicators_traffic rt cd m2) as T3.
  pose proof (calculate_technical_indicators_traffic rt pd m3) as T4.
  rewrite E1 in T1. rewrite E2 in T2. rewrite E3 in T3. rewrite E4 in T4.
  simpl in T1, T2, T3, T4. rewrite S1 in T2.
  exists cd, pd, ct, pt, m1, m2, m3, m4.
  split; [done|]. split; [done|]. split; [done|]. split; [done|].
  split; [done|]. split; [congruence|].
  assert (Hcp : pd = None \/ pd <> cd).
  { destruct pd as [rp|]; [right|by left]. intros <-.
    specialize (G2 rp eq_refl). specialize (B1 rp eq_refl). lia. }
  assert (Htp : ct = None \/ ct <> pd).
  { destruct ct as [rc|]; [right|by left]. intros <-.
    specialize (G3 rc eq_refl). specialize (B2 rc eq_refl). lia. }
  unfold leg_view; simpl.
  split; [rewrite (K4 ct B3 Htp), F3, (K2 cd B1), F1; done|].
  split; [by rewrite F4, (K3 pd B2 Hcp), F2, S1|].
  split; [by eapply bounded_mono|]. split; [done|]. split; [lia|].
  split.
  - intros o Hb.
    assert (Hb1 : bounded (heap m1) o) by (by eapply bounded_mono).
    assert (Hb2 : bounded (heap m2) o) by (by eapply bounded_mono).
    assert (Hb3 : bounded (heap m3) o) by (by eapply bounded_mono).
    rewrite K4, K3, K2, K1; try done.
    + destruct o as [ro|]; [right|by left]. intros <-.
      specialize (G1 ro eq_refl). specialize (Hb ro eq_refl). lia.
    + destruct o as [ro|]; [right|by left]. intros <-.
      specialize (G2 ro eq_refl). specialize (Hb ro eq_refl). lia.
  - eapply traffic_eq;
      [exact (traffic_trans _ _ _ _ _ _ _
                (traffic_trans _ _ _ _ _ _ _
                   (traffic_trans _ _ _ _ _ _ _ T1 T2) T3) T4)
      | lia | lia].
Qed.

(** [analyze]: result, traffic and frames. *)
Lemma analyze_effects (rt : Runtime) (m : Machine) :
  exists res m',
    analyze rt m = (Some res, m')
    /\ view_analyze (Some res, m') = analysis rt (self m)
    /\ inputs (self m') = inputs (self m)
    /\ traffic m m' (if res is Some _ then 2 else 0) 1
    /\ length (heap m) <= length (heap m')
    /\ (forall o, bounded (heap m) o ->
          frame_at (heap m') o = frame_at (heap m) o)
    /\ (forall r, res = Some r ->
          bounded (heap m') (data (Call r)) /\ bounded (heap m') (data (Put r))).
Proof.
  destruct (analyze_run rt m) as (res & m' & E & V & I).
  exists res, m'. split; [done|]. split; [done|]. split; [done|].
  revert E. clear V I.
  destruct (fetch_ticker_details_run rt m) as (m1 & E1 & H1 & I1 & R1 & _).
  pose proof (fetch_ticker_details_traffic rt m) as T1.
  rewrite E1 in T1. simpl in T1.
  unfold analyze. erewrite bind_run by exact E1.
  destruct (resolved rt (company_name (self m))) as [[sid nse]|]; simpl.
  2: { intros [= <- <-]. rewrite H1. repeat split; done. }
  destruct (R1 _ eq_refl) as [Rs Rn]. simpl in Rs, Rn.
  destruct (fetch_closest_contract_ids_run rt m1)
    as (m2 & E2 & H2 & I2 & W2 & _).
  pose proof (fetch_closest_contract_ids_traffic rt m1) as T2.
  rewrite E2 in T2. simpl in T2.
  erewrite bind_run by exact E2. rewrite Rs, Rn in *.
  destruct (selected rt sid nse) as [[c p]|] eqn:Hsel; simpl.
  2: { intros [= <- <-]. rewrite H2, H1.
       split; [|repeat split; done].
       eapply traffic_eq; [exact (traffic_trans _ _ _ _ _ _ _ T1 T2)|done..]. }
  destruct (selected_winning rt _ _ _ _ Hsel) as (e & He & -> & -> & Tc & Tp).
  destruct (W2 e He) as [Wc Wp].
  destruct (legs_effects rt m2)
    as (cd & pd & ct & pt & m3 & m4 & m5 & m6
        & E3 & E4 & E5 & E6 & S3 & S6 & Fc & Fp & Bc & Bp & L & K & T3).
  rewrite Wc, Wp, Tc, Tp in T3.
  erewrite bind_run by apply get_self_run.
  erewrite bind_run by exact E3.
  erewrite bind_run by apply get_self_run.
  erewrite bind_run by exact E4.
  erewrite bind_run by exact E5.
  erewrite bind_run by exact E6.
  erewrite bind_run by apply get_self_run.
  intros [= <- <-]. rewrite H2, H1 in *.
  split.
  { eapply traffic_eq;
      [exact (traffic_trans _ _ _ _ _ _ _
                (traffic_trans _ _ _ _ _ _ _ T1 T2) T3)|done..]. }
  split; [done|]. split; [done|].
  by intros r [= <-].
Qed.

(** [analysis_summary]: result, traffic and frames. *)
Lemma analysis_summary_effects (rt : Runtime) (m : Machine) :
  exists m',
    analysis_summary rt m = (Some (summary_of_view (analysis rt (self m))), m')
    /\ traffic m m' (if analysis rt (self m) is Some _ then 2 else 0) 1
    /\ length (heap m) <= length (heap m')
    /\ (forall o, bounded (heap m) o ->
          frame_at (heap m') o = frame_at (heap m) o).
Proof.
  destruct (analysis_summary_run rt m) as (m' & E).
  exists m'. split; [done|]. revert E.
  generalize (summary_of_view (analysis rt (self m))). intros sv.
  unfold analysis.
  destruct (fetch_ticker_details_run rt m) as (m1 & E1 & H1 & I1 & R1 & _).
  pose proof (fetch_ticker_details_traffic rt m) as T1.
  rewrite E1 in T1. simpl in T1.
  unfold analysis_summary. erewrite bind_run by exact E1.
  destruct (resolved rt (company_name (self m))) as [[sid nse]|]; simpl.
  2: { intros [= <- <-]. rewrite H1. repeat split; done. }
  destruct (R1 _ eq_refl) as [Rs Rn]. simpl in Rs, Rn.
  destruct (fetch_closest_contract_ids_run rt m1)
    as (m2 & E2 & H2 & I2 & W2 & _).
  pose proof (fetch_closest_contract_ids_traffic rt m1) as T2.
  rewrite E2 in T2. simpl in T2.
  erewrite bind_run by exact E2. rewrite Rs, Rn in *.
  destruct (selected rt sid nse) as [[c p]|] eqn:Hsel; simpl.
  2: { intros [= <- <-]. rewrite H2, H1.
       split; [|repeat split; done].
       eapply traffic_eq; [exact (traffic_trans _ _ _ _ _ _ _ T1 T2)|done..]. }
  destruct (selected_winning rt _ _ _ _ Hsel) as (e & He & -> & -> & Tc & Tp).
  destruct (W2 e He) as [Wc Wp].
  destruct (legs_effects rt m2)
    as (cd & pd & ct & pt & m3 & m4 & m5 & m6
        & E3 & E4 & E5 & E6 & S3 & S6 & Fc & Fp & Bc & Bp & L & K & T3).
  rewrite Wc, Wp, Tc, Tp in T3.
  erewrite bind_run by apply get_self_run.
  erewrite bind_run by exact E3.
  erewrite bind_run by apply get_self_run.
  erewrite bind_run by exact E4.
  erewrite bind_run by exact E5.
  erewrite bind_run by exact E6.
  erewrite bind_run by (by apply latest_row_run).
  erewrite bind_run by (by apply latest_row_run).
  erewrite bind_run by apply get_self_run.
  intros [= _ <-]. rewrite H2, H1 in *.
  split; [|done].
  eapply traffic_eq;
    [exact (traffic_trans _ _ _ _ _ _ _
              (traffic_trans _ _ _ _ _ _ _ T1 T2) T3)|done..].
Qed.

(** X10: [analyze] never raises.  Whatever the gateway answers it issues
    exactly one search call, and it issues two candle-history calls when
    it returns a result and none when it does not. *)
Theorem analyze_traffic (rt : Runtime) (m : Machine) :
  exists res,
    (analyze rt m).1 = Some res
    /\ traffic m (analyze rt m).2 (if res is Some _ then 2 else 0) 1.
Proof.
  destruct (analyze_effects rt m) as (res & m' & E & _ & _ & T & _).
  exists res. by rewrite E.
Qed.

(** X11: A call of [analysis_summary] after [analyze], on the same analyzer,
    fetches and derives anew and leaves the frames [analyze] returned as
    they are: the caller still reads the same full-series view through
    them.  No frame that existed before either call is changed. *)
Theorem summary_keeps_analyze_frames (rt : Runtime) (m : Machine) :
  view_analyze ((analyze rt m).1, (analysis_summary rt (analyze rt m).2).2)
  = view_analyze (analyze rt m)
  /\ forall o, bounded (heap m) o ->
       frame_at (heap (analysis_summary rt (analyze rt m).2).2) o
       = frame_at (heap m) o.
Proof.
  destruct (analyze_effects rt m) as (res & m1 & E1 & _ & _ & _ & L1 & K1 & B1).
  destruct (analysis_summary_effects rt m1) as (m2 & E2 & _ & L2 & K2).
  rewrite E1. simpl. rewrite E2. simpl. split.
  - unfold view_analyze, view_leg. simpl. destruct res as [res|]; [|done].
    destruct (B1 res eq_refl) as [Bc Bp].
    pose proof (K2 _ Bc) as Hc. pose proof (K2 _ Bp) as Hp.
    unfold frame_at in Hc, Hp. by rewrite Hc, Hp.
  - intros o Hb. rewrite K2, K1; [done..|]. by eapply bounded_mono.
Qed.

(** ** The keys of a summary row *)

Lemma keys_assoc_set {V} (k : string) (v : V) (l : list (string * V)) :
  map fst (assoc_set k v l) = names_after k (map fst l).
Proof.
  induction l as [|[k' v'] l IH]; simpl; [done|].
  destruct (String.eqb k' k); simpl; by rewrite ?IH.
Qed.

Lemma price_frame_names (rt : Runtime) (cid : option string)
    (a : ContractAnalyzer) (df : DataFrame) :
  price_frame rt cid a = Some df -> column_names df = base_names.
Proof.
  unfold price_frame. destruct (truthy cid); [|done].
  destruct (candleHistory _ _ _ _ _) as [|[|c cs]]; [done | done |].
  destruct (mapM _ _); [|done]. by intros [= <-].
Qed.

Lemma indicator_frame_names (rt : Runtime) (df out : DataFrame) :
  column_names df = base_names ->
  indicator_frame rt df = Some out ->
  column_names out = base_names ++ derived_names.
Proof.
  intros Hnames. unfold indicator_frame. destruct (len df <? 20); [done|].
  destruct (derive_columns rt df) as [[[]|] df1] eqn:Hd; [|done].
  intros [= <-]. rewrite column_names_dropna.
  by eapply derive_columns_names.
Qed.

(** The frame of a leg has the fifteen float columns. *)
Lemma leg_series_names (rt : Runtime) (cid : option string)
    (a : ContractAnalyzer) (df : DataFrame) :
  series (leg_view rt cid a) = Some df ->
  column_names df = base_names ++ derived_names.
Proof.
  unfold leg_view; simpl.
  destruct (price_frame rt cid a) as [pf|] eqn:Hpf; [|done]. simpl.
  apply indicator_frame_names. by eapply price_frame_names.
Qed.

Lemma project_latest_keys (l : LegView) (d : dict) :
  project_latest l = Some d ->
  exists df,
    series l = Some df
    /\ map fst d = names_after "contractId" ("time" :: column_names df)
    /\ assoc "contractId" d = Some (of_id (leg_contract l)).
Proof.
  unfold project_latest, iloc_last_to_dict.
  destruct (series l) as [df|]; [|done].
  destruct (list.last (df_rows df)); [|done].
  intros [= <-]. exists df. split; [done|].
  cbn [map fst names_after assoc String.eqb Ascii.eqb Bool.eqb].
  rewrite keys_assoc_set, assoc_set_eq, map_map. done.
Qed.

Lemma truthy_nonempty (o : option string) :
  truthy o = true -> exists id, o = Some id /\ id <> "".
Proof. destruct o as [[|c s]|]; try done. intros _. by eexists. Qed.

(** X12: [analysis_summary] never raises: the last row of a frame is read only
    when the frame has one.  Every row it returns has the same seventeen
    keys in the same order, the timestamp, the five candle columns, the
    ten derived columns and the contract id, and the contract id is a
    non-empty string. *)
Theorem summary_rows (rt : Runtime) (m : Machine) :
  exists res,
    (analysis_summary rt m).1 = Some res
    /\ forall s d,
         res = Some s ->
         CallSummary s = Some d \/ PutSummary s = Some d ->
         map fst d = "time" :: base_names ++ derived_names ++ ["contractId"]
         /\ exists id, assoc "contractId" d = Some (VStr id) /\ id <> "".
Proof.
  destruct (analysis_summary_run rt m) as (m' & E).
  eexists. rewrite E. split; [reflexivity|].
  intros s d Hs Hd. unfold analysis in Hs.
  destruct (resolved rt (company_name (self m))) as [[sid nse]|]; [|done].
  destruct (selected rt sid nse) as [[c p]|] eqn:Hsel; [|done].
  destruct (selected_winning rt _ _ _ _ Hsel) as (e & _ & _ & _ & Tc & Tp).
  injection Hs as <-. simpl in Hd.
  destruct Hd as [Hd|Hd];
    destruct (project_latest_keys _ _ Hd) as (df & Hdf & Hkeys & Hid);
    rewrite (leg_series_names _ _ _ _ Hdf) in Hkeys;
    (split; [exact Hkeys|]); simpl in Hid.
  - destruct (truthy_nonempty _ Tc) as (id & -> & Hne). by exists id.
  - destruct (truthy_nonempty _ Tp) as (id & -> & Hne). by exists id.
Qed.

(** ** Charts *)

Lemma assoc_of_key {V} (k : string) (l : list (string * V)) :
  In k (map fst l) -> exists v, assoc k l = Some v.
Proof.
  induction l as [|[k' v'] l IH]; simpl; [done|].
  intros [->|Hin]; [by rewrite String.eqb_refl; eexists|].
  destruct (String.eqb k' k); [by eexists | by apply IH].
Qed.

(** X13: For a frame with the fifteen columns of a derived frame,
    [plot_candlestick_chart] does not raise and shows one chart with four
    traces, the candlesticks, the two bands and the 20-period mean over
    the timestamps of the frame, under the given title and key; it changes
    nothing else. *)
Theorem chart_of_derived_frame (s : Session) (r : ref) (df : DataFrame)
    (title key : string) :
  heap (machine s) !! r = Some df ->
  column_names df = base_names ++ derived_names ->
  exists open_ high low close upper lower sma,
    getitem "open" df = Some open_ /\ getitem "high" df = Some high
    /\ getitem "low" df = Some low /\ getitem "close" df = Some close
    /\ getitem "BB_Upper" df = Some upper /\ getitem "BB_Lower" df = Some lower
    /\ getitem "SMA_20" df = Some sma
    /\ plot_candlestick_chart r title key s
       = (Some tt,
          {| machine := machine s;
             ui := ui s
                   ++ [StPlotlyChart
                         {| fig_title := title;
                            fig_x := map snd (df_rows df);
                            fig_traces :=
                              [Candlestick title open_ high low close;
                               Scatter "BB Upper" upper;
                               Scatter "BB Lower" lower;
                               Scatter "SMA 20" sma] |}
                         key] |}).
Proof.
  intros Hr Hnames.
  assert (Hcol : forall name, In name (base_names ++ derived_names) ->
                   exists v, getitem name df = Some v).
  { intros name Hin. apply assoc_of_key. by rewrite <- Hnames in Hin. }
  destruct (Hcol "open") as [o Ho]; [simpl; tauto|].
  destruct (Hcol "high") as [h Hh]; [simpl; tauto|].
  destruct (Hcol "low") as [l Hl]; [simpl; tauto|].
  destruct (Hcol "close") as [c Hc]; [simpl; tauto|].
  destruct (Hcol "BB_Upper") as [u Hu]; [simpl; tauto|].
  destruct (Hcol "BB_Lower") as [lo Hlo]; [simpl; tauto|].
  destruct (Hcol "SMA_20") as [y Hy]; [simpl; tauto|].
  exists o, h, l, c, u, lo, y. repeat (split; [done|]).
  unfold plot_candlestick_chart, on_machine, show, has_column. xunfold.
  rewrite Hr. cbv beta match. rewrite Ho, Hh, Hl, Hc, Hu, Hlo, Hy.
  destruct s. reflexivity.
Qed.

Lemma chart_of_derived_frame_witness :
  exists open_ high low close upper lower sma,
    getitem "open" (dropna (mutated (sample_runtime sample_chain 40)
                              (sample_frame 40))) = Some open_
    /\ getitem "high" (dropna (mutated (sample_runtime sample_chain 40)
                                 (sample_frame 40))) = Some high
    /\ getitem "low" (dropna (mutated (sample_runtime sample_chain 40)
                                (sample_frame 40))) = Some low
    /\ getitem "close" (dropna (mutated (sample_runtime sample_chain 40)
                                  (sample_frame 40))) = Some close
    /\ getitem "BB_Upper" (dropna (mutated (sample_runtime sample_chain 40)
                                     (sample_frame 40))) = Some upper
    /\ getitem "BB_Lower" (dropna (mutated (sample_runtime sample_chain 40)
                                     (sample_frame 40))) = Some lower
    /\ getitem "SMA_20" (dropna (mutated (sample_runtime sample_chain 40)
                                   (sample_frame 40))) = Some sma
    /\ plot_candlestick_chart 0 "CALL - C100" "ACME_CALL"
         {| machine :=
              machine_with (dropna (mutated (sample_runtime sample_chain 40)
                                      (sample_frame 40)));
            ui := [] |}
       = (Some tt,
          {| machine :=
               machine_with (dropna (mutated (sample_runtime sample_chain 40)
                                       (sample_frame 40)));
             ui := []
                   ++ [StPlotlyChart
                         {| fig_title := "CALL - C100";
                            fig_x :=
                              map snd
                                (df_rows
                                   (dropna
                                      (mutated (sample_runtime sample_chain 40)
                                         (sample_frame 40))));
                            fig_traces :=
                              [Candlestick "CALL - C100" open_ high low close;
                               Scatter "BB Upper" upper;
                               Scatter "BB Lower" lower;
                               Scatter "SMA 20" sma] |}
                         "ACME_CALL"] |}).
Proof.
  apply (chart_of_derived_frame
           {| machine :=
                machine_with (dropna (mutated (sample_runtime sample_chain 40)
                                        (sample_frame 40)));
              ui := [] |} 0
           (dropna (mutated (sample_runtime sample_chain 40) (sample_frame 40)))
           "CALL - C100" "ACME_CALL");
    [reflexivity | vm_compute; reflexivity].
Defined.

(** * The batch driver *)

Lemma plot_candlestick_chart_run (s : Session) (r : ref) (df : DataFrame)
    (title key : string) :
  heap (machine s) !! r = Some df ->
  plot_candlestick_chart r title key s
  = match chart_of title df with
    | Some fig =>
        (Some tt,
         {| machine := machine s; ui := ui s ++ [StPlotlyChart fig key] |})
    | None => (None, s)
    end.
Proof.
  intros Hr. unfold plot_candlestick_chart, chart_of, on_machine, show.
  xunfold. rewrite Hr. cbv beta match. destruct s as [m u]. simpl.
  destruct (getitem "open" df); simpl; [|done].
  destruct (getitem "high" df); simpl; [|done].
  destruct (getitem "low" df); simpl; [|done].
  destruct (getitem "close" df); simpl; [|done].
  destruct (has_column "BB_Upper" df && has_column "BB_Lower" df); simpl.
  - destruct (getitem "BB_Upper" df); simpl; [|done].
    destruct (getitem "BB_Lower" df); simpl; [|done].
    destruct (has_column "SMA_20" df); simpl; [|done].
    by destruct (getitem "SMA_20" df).
  - destruct (has_column "SMA_20" df); simpl; [|done].
    by destruct (getitem "SMA_20" df).
Qed.

Lemma chart_of_derived (title : string) (df : DataFrame) :
  column_names df = base_names ++ derived_names ->
  is_Some (chart_of title df).
Proof.
  intros Hnames.
  assert (Hcol : forall name, In name (base_names ++ derived_names) ->
                   exists v, getitem name df = Some v).
  { intros name Hin. apply assoc_of_key. by rewrite <- Hnames in Hin. }
  destruct (Hcol "open") as [o Ho]; [simpl; tauto|].
  destruct (Hcol "high") as [h Hh]; [simpl; tauto|].
  destruct (Hcol "low") as [l Hl]; [simpl; tauto|].
  destruct (Hcol "close") as [c Hc]; [simpl; tauto|].
  destruct (Hcol "BB_Upper") as [u Hu]; [simpl; tauto|].
  destruct (Hcol "BB_Lower") as [lo Hlo]; [simpl; tauto|].
  destruct (Hcol "SMA_20") as [y Hy]; [simpl; tauto|].
  unfold chart_of, has_column. rewrite Ho, Hh, Hl, Hc, Hu, Hlo, Hy. simpl.
  by eexists.
Qed.

Lemma project_latest_nonempty (v : LegView) : project_latest v <> Some [].
Proof.
  unfold project_latest, iloc_last_to_dict.
  destruct (series v) as [df|]; [|done].
  destruct (list.last (df_rows df)); [|done]. simpl.
  destruct (df_columns df) as [|[k c] l]; simpl; [done|].
  by destruct (String.eqb k "contractId").
Qed.

(** One leg of the loop body, for a leg that [analyze] returned. *)
Lemma process_leg_run (label ticker : string) (leg : Leg) (v : LegView)
    (rows : list dict) (s : Session) :
  frame_at (heap (machine s)) (data leg) = series v ->
  contractId leg = leg_contract v ->
  bounded (heap (machine s)) (data leg) ->
  (forall df, series v = Some df ->
     column_names df = base_names ++ derived_names) ->
  process_leg label ticker (Some leg) (project_latest v) rows s
  = (Some (rows ++ leg_row ticker v),
     {| machine := machine s; ui := ui s ++ leg_chart label ticker v |}).
Proof.
  intros Hframe Hid Hb Hnames. unfold process_leg, leg_chart, leg_row.
  destruct leg as [[r|] id]; cbn [data contractId frame_at] in *; subst id;
    unfold ref in *.
  - destruct (lookup_lt_is_Some_2 (heap (machine s)) r (Hb r eq_refl))
      as [df Hdf].
    rewrite Hdf in Hframe. rewrite <- Hframe.
    destruct (chart_of_derived (label ++ " - " ++ fstr (leg_contract v)) df
                (Hnames df (eq_sym Hframe))) as [fig Hfig].
    unfold bind at 1.
    rewrite (plot_candlestick_chart_run s r df _ _ Hdf), Hfig.
    pose proof (project_latest_nonempty v) as Hne.
    destruct (project_latest v) as [[|kv d]|]; [done | done |].
    by rewrite app_nil_r.
  - rewrite <- Hframe.
    assert (project_latest v = None) as ->
      by (unfold project_latest; by rewrite <- Hframe).
    destruct s. by rewrite !app_nil_r.
Qed.

Arguments process_leg : simpl never.

Section BatchRuns.
Variable rt : Runtime.
Variable strip : string -> string.
Variables (start_ end_ interval_ : Z) (output_path : string).

Lemma analysis_leg_names (a : ContractAnalyzer) (c p : LegView)
    (df : DataFrame) :
  analysis rt a = Some (c, p) ->
  series c = Some df \/ series p = Some df ->
  column_names df = base_names ++ derived_names.
Proof.
  unfold analysis.
  destruct (resolved rt (company_name a)) as [[sid nse]|]; [|done].
  destruct (selected rt sid nse) as [[ci pi]|]; [|done].
  intros [= <- <-] [H|H]; by eapply leg_series_names.
Qed.

(** The body of the loop: what it shows, the rows it adds and the calls
    it costs depend on the ticker alone. *)
Lemma process_ticker_run (ticker : string) (lists : list dict * list dict)
    (s : Session) :
  exists s',
    process_ticker rt strip start_ end_ interval_ ticker lists s
    = (Some (lists.1 ++ call_rows rt strip start_ end_ interval_ ticker,
             lists.2 ++ put_rows rt strip start_ end_ interval_ ticker), s')
    /\ ui s' = ui s ++ ticker_page rt strip start_ end_ interval_ ticker
    /\ traffic (machine s) (machine s')
         (if ticker_analysis rt strip start_ end_ interval_ ticker is Some _
          then 4 else 0) 2
    /\ forall o, bounded (heap (machine s)) o ->
         frame_at (heap (machine s')) o = frame_at (heap (machine s)) o.
Proof.
  set (a := init (strip ticker) start_ end_ interval_).
  set (m0 := with_self (fun _ => a) (machine s)).
  destruct (analyze_effects rt m0)
    as (res & m1 & E1 & V1 & I1 & T1 & L1 & K1 & B1).
  destruct (analysis_summary_effects rt m1) as (m2 & E2 & T2 & L2 & K2).
  rewrite (analysis_inputs rt _ _ I1) in E2, T2.
  change (self m0) with a in *.
  unfold process_ticker, call_rows, put_rows, ticker_page, ticker_analysis.
  fold a. unfold show, on_machine. xunfold. cbn [machine ui].
  fold m0. rewrite E1. cbv beta match. cbn [machine ui]. rewrite E2.
  cbv beta match. cbn [machine ui].
  assert (Tall : traffic (machine s) m2
                   (if analysis rt a is Some _ then 4 else 0) 2).
  { assert (T0 : traffic (machine s) m0 0 0)
      by (exists []; split; [by rewrite app_nil_r | done]).
    unfold view_analyze in V1. simpl in V1.
    eapply traffic_eq;
      [exact (traffic_trans _ _ _ _ _ _ _
                (traffic_trans _ _ _ _ _ _ _ T0 T1) T2) | | done].
    rewrite <- V1. by destruct res. }
  assert (Kall : forall o, bounded (heap (machine s)) o ->
                   frame_at (heap m2) o = frame_at (heap (machine s)) o).
  { intros o Hb. rewrite K2, K1; [done..|]. by eapply bounded_mono. }
  unfold view_analyze in V1. simpl in V1.
  rewrite <- V1 in Tall.
  destruct res as [res|]; simpl.
  - rewrite <- V1. simpl.
    destruct (B1 res eq_refl) as [Bc Bp].
    assert (Hc : frame_at (heap m2) (data (Call res))
                 = series (view_leg (heap m1) (Call res))) by (by apply K2).
    assert (Hp : frame_at (heap m2) (data (Put res))
                 = series (view_leg (heap m1) (Put res))) by (by apply K2).
    pose proof (fun df H => analysis_leg_names a _ _ df (eq_sym V1) (or_introl H))
      as Nc.
    pose proof (fun df H => analysis_leg_names a _ _ df (eq_sym V1) (or_intror H))
      as Np.
    pose proof (process_leg_run "CALL" ticker (Call res)
                  (view_leg (heap m1) (Call res)) lists.1
                  {| machine := m2;
                     ui := ui s ++ [StWrite ("Processing " ++ ticker ++ "...")] |}
                  Hc eq_refl (bounded_mono _ _ _ L2 Bc) Nc) as Pc.
    cbn [machine ui] in Pc. rewrite Pc. cbv beta match.
    pose proof (process_leg_run "PUT" ticker (Put res)
                  (view_leg (heap m1) (Put res)) lists.2
                  {| machine := m2;
                     ui := (ui s ++ [StWrite ("Processing " ++ ticker ++ "...")])
                           ++ leg_chart "CALL" ticker
                                (view_leg (heap m1) (Call res)) |}
                  Hp eq_refl (bounded_mono _ _ _ L2 Bp) Np) as Pp.
    cbn [machine ui] in Pp. rewrite Pp. cbv beta match.
    eexists. split; [reflexivity|]. cbn [machine ui].
    split; [by rewrite <- !app_assoc|]. by split.
  - rewrite <- V1. simpl. rewrite !app_nil_r.
    eexists. split; [by destruct lists|]. cbn [machine ui]. by split.
Qed.

(** The loop over the tickers. *)
Lemma for_tickers_run (tickers : list string) (lists : list dict * list dict)
    (s : Session) :
  exists s',
    for_tickers rt strip start_ end_ interval_ tickers lists s
    = (Some (lists.1
               ++ concat (map (call_rows rt strip start_ end_ interval_) tickers),
             lists.2
               ++ concat (map (put_rows rt strip start_ end_ interval_) tickers)),
       s')
    /\ ui s'
       = ui s ++ concat (map (ticker_page rt strip start_ end_ interval_) tickers)
    /\ (exists c, c <= 4 * length tickers
                  /\ traffic (machine s) (machine s') c (2 * length tickers))
    /\ forall o, bounded (heap (machine s)) o ->
         frame_at (heap (machine s')) o = frame_at (heap (machine s)) o.
Proof.
  revert lists s. induction tickers as [|t ts IH]; intros lists s; simpl.
  - exists s. rewrite !app_nil_r. split; [by destruct lists|].
    split; [done|]. split; [|done]. exists 0. split; [lia|apply traffic_refl].
  - destruct (process_ticker_run t lists s) as (s1 & E1 & U1 & T1 & K1).
    unfold bind. rewrite E1.
    destruct (IH (lists.1 ++ call_rows rt strip start_ end_ interval_ t,
                  lists.2 ++ put_rows rt strip start_ end_ interval_ t) s1)
      as (s2 & E2 & U2 & (c & Hc & T2) & K2).
    exists s2. split; [rewrite E2; cbn [fst snd]; by rewrite <- !app_assoc|].
    split; [by rewrite U2, U1, <- app_assoc|].
    split.
    + eexists. split; [|eapply traffic_eq;
                         [exact (traffic_trans _ _ _ _ _ _ _ T1 T2)
                         | reflexivity | lia]].
      destruct (ticker_analysis _ _ _ _ _ t); lia.
    + intros o Hb. rewrite K2; [by apply K1|].
      intros r ->. pose proof (Hb r eq_refl) as Hr.
      apply lookup_lt_is_Some_2 in Hr as [df Hdf].
      pose proof (K1 (Some r) Hb) as Hk. unfold frame_at, ref in *.
      rewrite Hdf in Hk. by eapply lookup_lt_Some.
Qed.
End BatchRuns.

(** ** What [main] shows and writes *)

(** [main] after a click with an uploaded file that has a column
    ["Ticker"]. *)
Lemma main_run (rt : Runtime) (strip : string -> string)
    (to_excel : string -> list (string * list dict) -> bool)
    (start_ end_ interval_ : Z) (output_path : string)
    (tickers : list string) (s : Session) :
  exists s',
    main rt strip to_excel start_ end_ interval_ output_path true
      (Some (Table (Some tickers))) s
    = (batch_result rt strip to_excel start_ end_ interval_ output_path tickers,
       s')
    /\ ui s'
       = ui s
           ++ batch_page rt strip to_excel start_ end_ interval_ output_path
                tickers
    /\ machine s'
       = machine (for_tickers rt strip start_ end_ interval_ tickers ([], [])
                    s).2.
Proof.
  destruct (for_tickers_run rt strip start_ end_ interval_ tickers ([], []) s)
    as (s1 & E & U & _). simpl in E.
  unfold main, batch_page, batch_result, write_fails, closing, read_csv,
    lift_opt, bind, ret.
  rewrite E.
  destruct (concat (map (call_rows rt strip start_ end_ interval_) tickers)),
    (concat (map (put_rows rt strip start_ end_ interval_) tickers));
    try destruct (to_excel output_path _);
    unfold show, modify, raise; simpl;
    (eexists; split; [reflexivity|]; simpl; rewrite U, <- ?app_assoc, ?app_nil_r;
     done).
Qed.

(** X14: After a click with an uploaded file whose table has a column
    ["Ticker"], the page [main] produces is [batch_page], whatever the
    gateway and the [ta] package do: for each ticker in turn the line
    "Processing ..." and the charts of that ticker, then the error line
    when no row was collected, the workbook and the success line when
    rows were collected and the workbook could be written, and nothing
    more when it could not.  In that last case, and only in that case,
    the run ends with the exception ([batch_result]).  What a ticker
    contributes depends on that ticker alone.  A file [pd.read_csv]
    rejects and a table without the column ["Ticker"] end the run with an
    exception before anything is shown or requested.  Without a click, or
    without a file, [main] does nothing at all. *)
Theorem main_is_batch_page (rt : Runtime) (strip : string -> string)
    (to_excel : string -> list (string * list dict) -> bool)
    (start_ end_ interval_ : Z) (output_path : string)
    (tickers : list string) (s : Session) :
  (exists s',
     main rt strip to_excel start_ end_ interval_ output_path true
       (Some (Table (Some tickers))) s
     = (batch_result rt strip to_excel start_ end_ interval_ output_path
          tickers, s')
     /\ ui s'
        = ui s
            ++ batch_page rt strip to_excel start_ end_ interval_ output_path
                 tickers)
  /\ main rt strip to_excel start_ end_ interval_ output_path true
       (Some Unreadable) s = (None, s)
  /\ main rt strip to_excel start_ end_ interval_ output_path true
       (Some (Table None)) s = (None, s)
  /\ main rt strip to_excel start_ end_ interval_ output_path true None s
     = (Some tt, s)
  /\ forall uploaded_file,
       main rt strip to_excel start_ end_ interval_ output_path false
         uploaded_file s
       = (Some tt, s).
Proof.
  split; [|done].
  destruct (main_run rt strip to_excel start_ end_ interval_ output_path
              tickers s) as (s' & E & U & _).
  by exists s'.
Qed.

Lemma written_app (p q : list UiEvent) : written (p ++ q) = written p ++ written q.
Proof. unfold written. apply omap_app. Qed.

Lemma written_leg_chart (label ticker : string) (v : LegView) :
  written (leg_chart label ticker v) = [].
Proof.
  unfold leg_chart. destruct (series v); [|done]. by destruct (chart_of _ _).
Qed.

(** X15: The loop over the tickers does not abort: every ticker of the
    file gets its "Processing ..." line, in the order of the file,
    whether or not earlier tickers could be analysed and whether or not
    the workbook can be written afterwards, and these are the only lines
    written with [st.write]. *)
Theorem main_processes_every_ticker (rt : Runtime) (strip : string -> string)
    (to_excel : string -> list (string * list dict) -> bool)
    (start_ end_ interval_ : Z) (output_path : string)
    (tickers : list string) (s : Session) :
  written
    (ui (main rt strip to_excel start_ end_ interval_ output_path true
           (Some (Table (Some tickers))) s).2)
  = written (ui s)
      ++ map (fun ticker => ("Processing " ++ ticker ++ "...")%string) tickers.
Proof.
  destruct (main_run rt strip to_excel start_ end_ interval_ output_path
              tickers s) as (s' & E & U & _).
  rewrite E. simpl. rewrite U, written_app. f_equal.
  unfold batch_page. rewrite written_app.
  assert (written (closing to_excel output_path
                     (concat (map (call_rows rt strip start_ end_ interval_)
                                tickers))
                     (concat (map (put_rows rt strip start_ end_ interval_)
                                tickers))) = []) as ->.
  { unfold closing.
    by destruct (concat _), (concat _); try destruct (to_excel _ _). }
  rewrite app_nil_r. clear E U. induction tickers as [|t ts IH]; [done|].
  simpl. rewrite written_app, IH. f_equal.
  unfold ticker_page. simpl.
  destruct (ticker_analysis rt strip start_ end_ interval_ t) as [[c p]|];
    [|done].
  by rewrite written_app, !written_leg_chart.
Qed.

(** X16: Each ticker is analysed twice, once for the charts and once for the
    rows: a batch over [n] tickers issues exactly [2 * n] search calls and
    at most [4 * n] candle-history calls, and changes no frame that
    existed before. *)
Theorem main_traffic (rt : Runtime) (strip : string -> string)
    (to_excel : string -> list (string * list dict) -> bool)
    (start_ end_ interval_ : Z) (output_path : string)
    (tickers : list string) (s : Session) :
  exists candle_calls,
    candle_calls <= 4 * length tickers
    /\ traffic (machine s)
         (machine (main rt strip to_excel start_ end_ interval_ output_path
                     true (Some (Table (Some tickers))) s).2)
         candle_calls (2 * length tickers)
    /\ forall o, bounded (heap (machine s)) o ->
         frame_at
           (heap (machine (main rt strip to_excel start_ end_ interval_
                             output_path true (Some (Table (Some tickers)))
                             s).2)) o
         = frame_at (heap (machine s)) o.
Proof.
  destruct (for_tickers_run rt strip start_ end_ interval_ tickers ([], []) s)
    as (s1 & E & _ & (c & Hc & T) & K).
  destruct (main_run rt strip to_excel start_ end_ interval_ output_path
              tickers s) as (s' & E' & _ & M).
  exists c. split; [done|].
  rewrite E'. cbn [snd]. rewrite M, E. by split.
Qed.

Lemma resolved_unknown (rt : Runtime) (name : string) :
  searchSecurity (gateway rt) name = Ok [] -> resolved rt name = None.
Proof. unfold resolved. by intros ->. Qed.

(** X17: When the search knows none of the tickers of the uploaded file, the
    page holds the "Processing ..." lines and then the message "Please
    upload a CSV file and provide an output path.": no chart is drawn and
    no workbook is written, although a file was uploaded. *)
Theorem main_unknown_tickers (rt : Runtime) (strip : string -> string)
    (to_excel : string -> list (string * list dict) -> bool)
    (start_ end_ interval_ : Z) (output_path : string)
    (tickers : list string) (s : Session) :
  Forall (fun ticker => searchSecurity (gateway rt) (strip ticker) = Ok [])
    tickers ->
  ui (main rt strip to_excel start_ end_ interval_ output_path true
        (Some (Table (Some tickers))) s).2
  = ui s
      ++ map (fun ticker => StWrite ("Processing " ++ ticker ++ "...")) tickers
      ++ [StErrorText "Please upload a CSV file and provide an output path."].
Proof.
  intros Hall.
  destruct (main_run rt strip to_excel start_ end_ interval_ output_path
              tickers s) as (s' & E & U & _).
  rewrite E. simpl. rewrite U. f_equal. unfold batch_page.
  assert (Hnone : Forall (fun t => ticker_analysis rt strip start_ end_
                                     interval_ t = None) tickers).
  { eapply Forall_impl; [|exact Hall]. intros t Ht.
    unfold ticker_analysis, analysis. simpl.
    by rewrite (resolved_unknown rt _ Ht). }
  clear Hall E U.
  assert (concat (map (call_rows rt strip start_ end_ interval_) tickers) = []
          /\ concat (map (put_rows rt strip start_ end_ interval_) tickers) = []
          /\ concat (map (ticker_page rt strip start_ end_ interval_) tickers)
             = map (fun t => StWrite ("Processing " ++ t ++ "...")) tickers)
    as (-> & -> & ->); [|done].
  induction Hnone as [|t ts Ht _ (IH1 & IH2 & IH3)]; [done|].
  cbn [map concat]. rewrite IH1, IH2, IH3.
  unfold call_rows, put_rows, ticker_page. by rewrite Ht.
Qed.

Lemma main_unknown_tickers_witness :
  ui (main unknown_runtime sample_strip xlsx_only 0 86400000 15
        "analysis.xlsx" true (Some (Table (Some [" ACME "; "INFY"]))) blank).2
  = ui blank
      ++ map (fun ticker => StWrite ("Processing " ++ ticker ++ "..."))
           [" ACME "; "INFY"]
      ++ [StErrorText "Please upload a CSV file and provide an output path."].
Proof.
  apply (main_unknown_tickers unknown_runtime sample_strip xlsx_only 0
           86400000 15 "analysis.xlsx" [" ACME "; "INFY"] blank).
  repeat constructor.
Defined.

(** ** The rows of the workbook *)

Lemma assoc_set_fresh {V} (k : string) (v : V) (l : list (string * V)) :
  k ∉ map fst l -> assoc_set k v l = l ++ [(k, v)].
Proof.
  induction l as [|[k' v'] l IH]; simpl; [done|].
  intros Hk. apply not_elem_of_cons in Hk as [Hne Hk].
  destruct (String.eqb k' k) eqn:E.
  - apply String.eqb_eq in E. congruence.
  - by rewrite IH.
Qed.

Lemma fold_assoc_set_fresh {V} (d acc : list (string * V)) :
  NoDup (map fst acc ++ map fst d) ->
  fold_left (fun acc kv => assoc_set kv.1 kv.2 acc) d acc = acc ++ d.
Proof.
  revert acc. induction d as [|[k v] d IH]; intros acc Hnd; simpl.
  - by rewrite app_nil_r.
  - rewrite assoc_set_fresh, IH, <- app_assoc; [done| |].
    + by rewrite map_app, <- app_assoc.
    + simpl in Hnd. apply list.NoDup_app in Hnd as (_ & Hdisj & _).
      intros Hin. apply (Hdisj k Hin). by left.
Qed.

(** [{"Ticker": ticker, **summary}] puts the ticker first and keeps the
    keys of the summary in their order, provided the summary has no key
    ["Ticker"] of its own. *)
Lemma ticker_row_fresh (ticker : string) (d : dict) :
  NoDup ("Ticker" :: map fst d) ->
  ticker_row ticker d = ("Ticker", VStr ticker) :: d.
Proof. intros Hnd. unfold ticker_row. by rewrite fold_assoc_set_fresh. Qed.

Lemma leg_row_shape (rt : Runtime) (a : ContractAnalyzer) (c p v : LegView)
    (ticker : string) (row : dict) :
  analysis rt a = Some (c, p) -> v = c \/ v = p ->
  row ∈ leg_row ticker v ->
  exists d,
    row = ("Ticker", VStr ticker) :: d
    /\ map fst d = "time" :: base_names ++ derived_names ++ ["contractId"].
Proof.
  intros Ha Hv. unfold leg_row.
  destruct (project_latest v) as [d|] eqn:Hd; [|by intros ?%elem_of_nil].
  intros ->%list_elem_of_singleton.
  destruct (project_latest_keys _ _ Hd) as (df & Hdf & Hkeys & _).
  assert (Hnames : column_names df = base_names ++ derived_names).
  { eapply (analysis_leg_names rt a c p); [done|].
    destruct Hv as [->| ->]; [by left | by right]. }
  rewrite Hnames in Hkeys. exists d. split; [|exact Hkeys].
  apply ticker_row_fresh. rewrite Hkeys.
  apply (bool_decide_unpack _). vm_compute. exact I.
Qed.

(** X18: The rows the loop collects: every row of either list starts with the
    key ["Ticker"], holding a ticker of the file as it was written there,
    followed by the seventeen keys of a summary row in their order; each
    ticker adds at most one row to each list. *)
Theorem batch_rows (rt : Runtime) (strip : string -> string)
    (start_ end_ interval_ : Z) (tickers : list string) (s s' : Session)
    (call_data_list put_data_list : list dict) :
  for_tickers rt strip start_ end_ interval_ tickers ([], []) s
  = (Some (call_data_list, put_data_list), s') ->
  Forall (fun row =>
            exists ticker d,
              ticker ∈ tickers
              /\ row = ("Ticker", VStr ticker) :: d
              /\ map fst d
                 = "time" :: base_names ++ derived_names ++ ["contractId"])
    (call_data_list ++ put_data_list)
  /\ length call_data_list <= length tickers
  /\ length put_data_list <= length tickers.
Proof.
  intros Hrun.
  destruct (for_tickers_run rt strip start_ end_ interval_ tickers ([], []) s)
    as (s1 & E & _). rewrite E in Hrun. simpl in Hrun.
  injection Hrun as <- <- _. clear E.
  assert (Hc : forall t row, row ∈ call_rows rt strip start_ end_ interval_ t ->
                 exists d, row = ("Ticker", VStr t) :: d
                   /\ map fst d
                      = "time" :: base_names ++ derived_names ++ ["contractId"]).
  { intros t row. unfold call_rows, ticker_analysis.
    destruct (analysis rt _) as [[c p]|] eqn:Ha; [|by intros ?%elem_of_nil].
    eapply leg_row_shape; [exact Ha | by left]. }
  assert (Hp : forall t row, row ∈ put_rows rt strip start_ end_ interval_ t ->
                 exists d, row = ("Ticker", VStr t) :: d
                   /\ map fst d
                      = "time" :: base_names ++ derived_names ++ ["contractId"]).
  { intros t row. unfold put_rows, ticker_analysis.
    destruct (analysis rt _) as [[c p]|] eqn:Ha; [|by intros ?%elem_of_nil].
    eapply leg_row_shape; [exact Ha | by right]. }
  assert (Lc : forall t, length (call_rows rt strip start_ end_ interval_ t) <= 1).
  { intros t. unfold call_rows, leg_row.
    destruct (ticker_analysis _ _ _ _ _ t) as [[c p]|]; [|simpl; lia].
    destruct (project_latest c); simpl; lia. }
  assert (Lp : forall t, length (put_rows rt strip start_ end_ interval_ t) <= 1).
  { intros t. unfold put_rows, leg_row.
    destruct (ticker_analysis _ _ _ _ _ t) as [[c p]|]; [|simpl; lia].
    destruct (project_latest p); simpl; lia. }
  split; [|split].
  - apply Forall_forall. intros row Hrow%in_app_or.
    destruct Hrow as [Hrow|Hrow];
      apply in_concat in Hrow as (rows & Hrows & Hrow);
      apply in_map_iff in Hrows as (t & <- & Ht);
      apply list_elem_of_In in Hrow, Ht.
    + destruct (Hc t row Hrow) as (d & ? & ?). by exists t, d.
    + destruct (Hp t row Hrow) as (d & ? & ?). by exists t, d.
  - induction tickers as [|t ts IH]; simpl; [done|].
    rewrite length_app. specialize (Lc t). lia.
  - induction tickers as [|t ts IH]; simpl; [done|].
    rewrite length_app. specialize (Lp t). lia.
Qed.

Lemma batch_rows_witness :
  Forall (fun row =>
            exists ticker d,
              ticker ∈ [" ACME "]
              /\ row = ("Ticker", VStr ticker) :: d
              /\ map fst d
                 = "time" :: base_names ++ derived_names ++ ["contractId"])
    ((for_tickers_rows (sample_runtime sample_chain 40) sample_strip 0
        86400000 15 [" ACME "]).1
       ++ (for_tickers_rows (sample_runtime sample_chain 40) sample_strip 0
             86400000 15 [" ACME "]).2)
  /\ length (for_tickers_rows (sample_runtime sample_chain 40) sample_strip 0
               86400000 15 [" ACME "]).1 <= length [" ACME "]
  /\ length (for_tickers_rows (sample_runtime sample_chain 40) sample_strip 0
               86400000 15 [" ACME "]).2 <= length [" ACME "].
Proof.
  apply (batch_rows (sample_runtime sample_chain 40) sample_strip 0 86400000 15
           [" ACME "] blank
           (for_tickers (sample_runtime sample_chain 40) sample_strip 0
              86400000 15 [" ACME "] ([], []) blank).2).
  vm_compute. reflexivity.
Defined.
